(** * Order Service and Product Service: a shallow embedding

    The two FastAPI services of the repository, [product-service/main.py]
    and [order-service/main.py], are translated function by function.
    Module-level globals ([products_db], [orders_db], [order_counter])
    become explicit state, raised exceptions become a result type, and the
    HTTP lookups issued by [create_order] become the nodes of an interaction
    tree that is run against the answers of the network. *)

From Stdlib Require Import ZArith List String Ascii Bool Lia.
From Stdlib Require Import Floats.SpecFloat DecimalString DecimalZ.
From Stdlib Require Finite.
Import ListNotations.

Local Open Scope Z_scope.
Local Open Scope string_scope.

(** ** The Python runtime, as far as the services use it *)

(** Python's [float] is IEEE 754 binary64: the specification floats of the
    standard library at precision 53 and maximal exponent 1024. *)
Module Float.

Definition prec : Z := 53.
Definition emax : Z := 1024.

Definition float := spec_float.

(** The literal [0.0]. *)
Definition zero : float := S754_zero false.

Definition add : float -> float -> float := SFadd prec emax.
Definition mul : float -> float -> float := SFmul prec emax.

(** The double nearest to the fraction [n / d] (ties to even), signed by
    [s]: what a decimal literal such as [9.99] denotes, and what
    [strtod] returns on a decimal string. *)
Definition of_ratio (s : bool) (n d : positive) : float :=
  SFdiv prec emax (S754_finite s n 0) (S754_finite false d 0).

(** The double nearest to an integer; an infinity when the integer is
    beyond the range of doubles. *)
Definition to_float (z : Z) : float := binary_normalize prec emax z 0 false.

(** [float * int] converts the integer first and raises [OverflowError]
    ([None] here) when it is too large. *)
Definition of_int (z : Z) : option float :=
  match to_float z with
  | S754_infinity _ => None
  | f => Some f
  end.

(** [n / d] rounded to the nearest integer, ties to even
    (for [0 <= n] and [0 < d]). *)
Definition round_half_even (n d : Z) : Z :=
  let q := n / d in
  let r := n mod d in
  match 2 * r ?= d with
  | Lt => q
  | Gt => q + 1
  | Eq => if Z.even q then q else q + 1
  end.

(** [round(x, 2)]: the exact binary value of [x] is rounded to two
    decimals, ties to even, and the decimal result is read back as a
    double. Infinities, NaN and zeros round to themselves, and so does a
    double with a non-negative exponent, which is an integer. *)
Definition round2 (x : float) : float :=
  match x with
  | S754_finite s m (Zneg k) =>
      match round_half_even (Zpos m * 100) (2 ^ Zpos k) with
      | Zpos n => of_ratio s n 100
      | _ => S754_zero s
      end
  | _ => x
  end.

(** [0 <= x] as Python evaluates it: false on NaN, true on [-0.0]. *)
Definition nonneg (x : float) : bool := SFleb zero x.

(** [x < 0]. *)
Definition negative (x : float) : bool := SFltb x zero.

(** Finite and not below zero. *)
Definition finite_nonneg (x : float) : bool :=
  match x with
  | S754_zero _ => true
  | S754_finite false _ _ => true
  | _ => false
  end.

End Float.

Abbreviation float := Float.float.

(** Neither an infinity nor NaN. *)
Definition is_finite (x : float) : bool :=
  match x with
  | S754_zero _ | S754_finite _ _ _ => true
  | _ => false
  end.

(** [str(n)] for an integer [n]: its decimal digits, with a minus sign when
    negative. *)
Definition str (n : Z) : string := NilZero.string_of_int (Z.to_int n).

(** A Python [dict] with string keys. It keeps insertion order: assigning
    to a present key replaces the value in place, assigning to an absent key
    appends. *)
Module Dict.
Section WithValue.
Context {V : Type}.

Definition t := list (string * V).

Definition empty : t := [].

Fixpoint get (k : string) (d : t) : option V :=
  match d with
  | [] => None
  | (k', v) :: d' => if String.eqb k' k then Some v else get k d'
  end.

(** [k in d] *)
Definition mem (k : string) (d : t) : bool :=
  match get k d with Some _ => true | None => false end.

(** [d[k] = v] *)
Fixpoint set (k : string) (v : V) (d : t) : t :=
  match d with
  | [] => [(k, v)]
  | (k', v') :: d' =>
      if String.eqb k' k then (k, v) :: d' else (k', v') :: set k v d'
  end.

(** [del d[k]] *)
Fixpoint del (k : string) (d : t) : t :=
  match d with
  | [] => []
  | (k', v') :: d' =>
      if String.eqb k' k then d' else (k', v') :: del k d'
  end.

Definition keys (d : t) : list string := map fst d.

(** [list(d.values())] *)
Definition values (d : t) : list V := map snd d.

(** [len(d)] *)
Definition len (d : t) : Z := Z.of_nat (List.length d).
End WithValue.
Arguments t : clear implicits.
End Dict.

(** Truthiness of an optional query parameter: [None] and the empty string
    are false. *)
Definition truthy (s : option string) : bool :=
  match s with
  | Some s' => negb (String.eqb s' "")
  | None => false
  end.

(** What a handler raises. [HTTPException] is turned by the framework into a
    response with that status code; the other exceptions are not caught by
    any handler. *)
Inductive exn : Type :=
| HTTPException (status_code : Z) (detail : string)
| KeyError (key : string)
| OverflowError (msg : string).

Inductive result (A : Type) : Type :=
| Ok (a : A)
| Raise (e : exn).
Arguments Ok {A} a.
Arguments Raise {A} e.

(** ** Product Service ([product-service/main.py]) *)

Module ProductService.

Record Product : Type := {
  id : string;
  name : string;
  price : float;
  category : string
}.

Record ProductCreate : Type := {
  create_name : string;
  create_price : float;
  create_category : string
}.

(** The catalog the module starts with. *)
Definition products_db : Dict.t Product :=
  [ ("1", {| id := "1"; name := "Laptop";
             price := Float.of_ratio false 99999 100;
             category := "Electronics" |});
    ("2", {| id := "2"; name := "Mouse";
             price := Float.of_ratio false 2999 100;
             category := "Electronics" |});
    ("3", {| id := "3"; name := "Keyboard";
             price := Float.of_ratio false 7999 100;
             category := "Electronics" |}) ].

(** [Product(id=product_id, **product.dict())] *)
Definition with_id (product_id : string) (product : ProductCreate) : Product :=
  {| id := product_id;
     name := create_name product;
     price := create_price product;
     category := create_category product |}.

(** [GET /products] *)
Definition get_products (db : Dict.t Product) (category_filter : option string)
  : list Product :=
  let products := Dict.values db in
  if truthy category_filter then
    filter (fun p => match category_filter with
                     | Some c => String.eqb (category p) c
                     | None => false
                     end) products
  else products.

(** [GET /products/{product_id}] *)
Definition get_product (db : Dict.t Product) (product_id : string)
  : result Product :=
  match Dict.get product_id db with
  | None => Raise (HTTPException 404 "Product not found")
  | Some p => Ok p
  end.

(** [POST /products] *)
Definition create_product (db : Dict.t Product) (product : ProductCreate)
  : Product * Dict.t Product :=
  let product_id := str (Dict.len db + 1) in
  let new_product := with_id product_id product in
  (new_product, Dict.set product_id new_product db).

(** [PUT /products/{product_id}] *)
Definition update_product (db : Dict.t Product) (product_id : string)
    (product : ProductCreate) : result Product * Dict.t Product :=
  if negb (Dict.mem product_id db) then
    (Raise (HTTPException 404 "Product not found"), db)
  else
    let updated_product := with_id product_id product in
    (Ok updated_product, Dict.set product_id updated_product db).

(** [DELETE /products/{product_id}] *)
Definition delete_product (db : Dict.t Product) (product_id : string)
  : result string * Dict.t Product :=
  if negb (Dict.mem product_id db) then
    (Raise (HTTPException 404 "Product not found"), db)
  else
    (Ok "Product deleted successfully", Dict.del product_id db).

End ProductService.

(** ** Order Service ([order-service/main.py]) *)

Module OrderService.

Record OrderItem : Type := {
  product_id : string;
  quantity : Z
}.

Record Order : Type := {
  id : string;
  customer_id : string;
  items : list OrderItem;
  total : float;
  status : string;
  created_at : string
}.

Record OrderCreate : Type := {
  create_customer_id : string;
  create_items : list OrderItem
}.

(** The module's globals. *)
Record state : Type := {
  orders_db : Dict.t Order;
  order_counter : Z
}.

Definition initial_state : state :=
  {| orders_db := Dict.empty; order_counter := 1 |}.

(** *** The HTTP client *)

(** The JSON object of a response: the Product Service answers with a
    product, or with an error object that has the single key [detail]. *)
Inductive json_body : Type :=
| ProductBody (product : ProductService.Product)
| DetailBody (detail : string).

(** What [client.get] gives: a response with a status code, or an
    [httpx.RequestError] (connection refused, DNS failure, timeout) whose
    text is [e]. *)
Inductive http_result : Type :=
| Response (status_code : Z) (body : json_body)
| RequestError (e : string).

(** A handler that awaits HTTP lookups: it returns, or it sends a GET
    request and goes on with the answer. *)
Inductive io (A : Type) : Type :=
| Ret (a : A)
| Get (url : string) (k : http_result -> io A).
Arguments Ret {A} a.
Arguments Get {A} url k.

Fixpoint bind {A B : Type} (t : io A) (f : A -> io B) : io B :=
  match t with
  | Ret a => f a
  | Get url k => Get url (fun r => bind (k r) f)
  end.

(** One request and its answer. *)
Definition exchange : Type := string * http_result.

(** Runs a handler against a network whose [n]-th answer to this handler is
    [net n]; gives the exchanges that took place, in order, and what the
    handler returned. *)
Fixpoint run {A : Type} (t : io A) (net : nat -> http_result)
  : list exchange * A :=
  match t with
  | Ret a => ([], a)
  | Get url k =>
      let r := net O in
      let '(trace, a) := run (k r) (fun n => net (S n)) in
      ((url, r) :: trace, a)
  end.

(** A network that gives the answers of a list and times out after them. *)
Definition answers (rs : list http_result) : nat -> http_result :=
  fun n => nth n rs (RequestError "timed out").

(** *** The handlers *)

Section Handlers.

(** The base URL of the Product Service, read from the environment when the
    module is loaded. *)
Variable PRODUCT_SERVICE_URL : string.

(** The address of the lookup for one item. *)
Definition product_url (item : OrderItem) : string :=
  PRODUCT_SERVICE_URL ++ "/products/" ++ product_id item.

(** The body of the [for] loop once the answer is there: the new running
    total, or the exception that leaves the loop and the handler. *)
Definition price_item (item : OrderItem) (total : float)
    (response : http_result) : result float :=
  match response with
  | Response status_code body =>
      if Z.eqb status_code 200 then
        match body with
        | ProductBody product =>
            match Float.of_int (quantity item) with
            | Some q =>
                Ok (Float.add total
                      (Float.mul (ProductService.price product) q))
            | None => Raise (OverflowError "int too large to convert to float")
            end
        | DetailBody _ => Raise (KeyError "price")
        end
      else if Z.eqb status_code 404 then
        Raise (HTTPException 404
                 ("Product " ++ product_id item ++ " not found"))
      else
        Raise (HTTPException status_code
                 ("Error fetching product " ++ product_id item))
  | RequestError e =>
      Raise (HTTPException 503 ("Product Service unavailable: " ++ e))
  end.

(** Steps 1 and 2: the loop over [order.items], one lookup per item, in
    order, stopping at the first exception. *)
Fixpoint price_items (items : list OrderItem) (total : float)
  : io (result float) :=
  match items with
  | [] => Ret (Ok total)
  | item :: rest =>
      Get (product_url item) (fun response =>
        match price_item item total response with
        | Ok total' => price_items rest total'
        | Raise e => Ret (Raise e)
        end)
  end.

(** Step 3: the order built from the total, and the state once it is
    stored. *)
Definition new_order (st : state) (order : OrderCreate) (now : string)
    (total : float) : Order :=
  {| id := str (order_counter st);
     customer_id := create_customer_id order;
     items := create_items order;
     total := Float.round2 total;
     status := "pending";
     created_at := now |}.

Definition store_order (st : state) (o : Order) : state :=
  {| orders_db := Dict.set (str (order_counter st)) o (orders_db st);
     order_counter := order_counter st + 1 |}.

(** [POST /orders]. [now] is [datetime.utcnow().isoformat()]. *)
Definition create_order (st : state) (order : OrderCreate) (now : string)
  : io (result Order * state) :=
  bind (price_items (create_items order) Float.zero) (fun priced =>
    Ret match priced with
        | Raise e => (Raise e, st)
        | Ok total =>
            let o := new_order st order now total in
            (Ok o, store_order st o)
        end).

(** [GET /orders/{order_id}] *)
Definition get_order (st : state) (order_id : string) : result Order :=
  match Dict.get order_id (orders_db st) with
  | None => Raise (HTTPException 404 "Order not found")
  | Some o => Ok o
  end.

(** [GET /orders] *)
Definition get_orders (st : state) (customer_filter : option string)
  : list Order :=
  let orders := Dict.values (orders_db st) in
  if truthy customer_filter then
    filter (fun o => match customer_filter with
                     | Some c => String.eqb (customer_id o) c
                     | None => false
                     end) orders
  else orders.

Definition valid_statuses : list string :=
  ["pending"; "confirmed"; "shipped"; "delivered"; "canceled"].

(** [status in valid_statuses] *)
Definition is_valid_status (s : string) : bool :=
  existsb (String.eqb s) valid_statuses.

(** [orders_db[order_id]["status"] = status] on the stored record. *)
Definition with_status (o : Order) (s : string) : Order :=
  {| id := id o;
     customer_id := customer_id o;
     items := items o;
     total := total o;
     status := s;
     created_at := created_at o |}.

(** [PATCH /orders/{order_id}/status] *)
Definition update_order_status (st : state) (order_id new_status : string)
  : result string * state :=
  match Dict.get order_id (orders_db st) with
  | None => (Raise (HTTPException 404 "Order not found"), st)
  | Some o =>
      if negb (is_valid_status new_status) then
        (Raise (HTTPException 400
           "Invalid status. Must be one of ['pending', 'confirmed', 'shipped', 'delivered', 'canceled']"),
         st)
      else
        (Ok ("Order " ++ order_id ++ " status updated to " ++ new_status),
         {| orders_db :=
              Dict.set order_id (with_status o new_status) (orders_db st);
            order_counter := order_counter st |})
  end.

(** *** The service over a sequence of requests *)

Inductive request : Type :=
| CreateOrder (order : OrderCreate) (now : string) (net : nat -> http_result)
| GetOrder (order_id : string)
| GetOrders (customer_filter : option string)
| UpdateOrderStatus (order_id new_status : string).

Inductive reply : Type :=
| OrderReply (r : result Order)
| OrdersReply (orders : list Order)
| MessageReply (r : result string).

Definition handle (st : state) (req : request) : reply * state :=
  match req with
  | CreateOrder order now net =>
      let '(r, st') := snd (run (create_order st order now) net) in
      (OrderReply r, st')
  | GetOrder order_id => (OrderReply (get_order st order_id), st)
  | GetOrders customer_filter => (OrdersReply (get_orders st customer_filter), st)
  | UpdateOrderStatus order_id new_status =>
      let '(r, st') := update_order_status st order_id new_status in
      (MessageReply r, st')
  end.

(** The replies to a sequence of requests, and the state after them. *)
Fixpoint serve (st : state) (reqs : list request) : list reply * state :=
  match reqs with
  | [] => ([], st)
  | req :: rest =>
      let '(rep, st') := handle st req in
      let '(reps, st'') := serve st' rest in
      (rep :: reps, st'')
  end.

(** The orders that successful creations returned, oldest first. *)
Fixpoint created (reqs : list request) (reps : list reply) : list Order :=
  match reqs, reps with
  | CreateOrder _ _ _ :: reqs', OrderReply (Ok o) :: reps' =>
      o :: created reqs' reps'
  | _ :: reqs', _ :: reps' => created reqs' reps'
  | _, _ => []
  end.

End Handlers.

End OrderService.

(** ** The two services together *)

Module System.

Import ProductService OrderService.

(** The answer of the Product Service to a lookup that went well. *)
Definition found (p : Product) : http_result := Response 200 (ProductBody p).

(** A character that a URL path segment carries as it is: an ASCII letter
    or digit, a hyphen or an underscore. *)
Definition plain_char (c : ascii) : bool :=
  let n := nat_of_ascii c in
  (Nat.leb 48 n && Nat.leb n 57)
  || (Nat.leb 65 n && Nat.leb n 90)
  || (Nat.leb 97 n && Nat.leb n 122)
  || Nat.eqb n 45 || Nat.eqb n 95.

(** An identifier that arrives at the Product Service as the path parameter
    [product_id] unchanged when [create_order] pastes it into the address:
    not empty, at most 255 characters, all of them plain. Every key of the
    catalog, a decimal number, is one. An identifier with [?], [#], [%],
    [/] or a dot in it is not: the address it gives may name another
    product or another route. *)
Definition plain_id (s : string) : bool :=
  negb (String.eqb s "")
  && Nat.leb (String.length s) 255
  && forallb plain_char (list_ascii_of_string s).

(** What the Order Service receives from [GET /products/{product_id}] over
    a catalog, where this model can say it: for a plain identifier, the
    product when it is there and its price is finite (a finite float goes
    through JSON unchanged), and the 404 answer of [get_product] when it is
    not there. There is no answer here for an identifier that is not plain,
    nor for a product whose price is an infinity or NaN, which does not
    travel as a JSON number. *)
Definition lookup (db : Dict.t Product) (product_id : string)
  : option http_result :=
  if plain_id product_id then
    match get_product db product_id with
    | Ok p => if is_finite (price p) then Some (found p) else None
    | Raise _ => Some (Response 404 (DetailBody "Product not found"))
    end
  else None.

(** The answers of a call are those of the catalog: the [n]-th answer is
    the one to the lookup of the [n]-th item. No network agrees with the
    catalog on an item that [lookup] has no answer for. *)
Definition catalog_answers (db : Dict.t Product) (items : list OrderItem)
    (net : nat -> http_result) : Prop :=
  forall n item,
    nth_error items n = Some item ->
    lookup db (OrderService.product_id item) = Some (net n).

(** A network for the scenarios: it delivers the lookups that [lookup]
    answers, the [n]-th lookup of a call being the one of the [n]-th item,
    and loses every other request, which the client sees as a timeout. *)
Definition catalog_net (db : Dict.t Product) (items : list OrderItem)
  : nat -> http_result :=
  fun n =>
    match nth_error items n with
    | Some item =>
        match lookup db (OrderService.product_id item) with
        | Some answer => answer
        | None => RequestError "timed out"
        end
    | None => RequestError "timed out"
    end.

(** The sum of price times quantity over the lines of an order, added up
    from [0.0] in the order of the lines. *)
Definition line_sum (lines : list (Product * OrderItem)) : float :=
  fold_left
    (fun acc line =>
       Float.add acc
         (Float.mul (price (fst line)) (Float.to_float (quantity (snd line)))))
    lines Float.zero.

Record system : Type := {
  catalog : Dict.t Product;
  orders : state
}.

Definition initial : system :=
  {| catalog := products_db; orders := initial_state |}.

Inductive operation : Type :=
| CreateProduct (product : ProductCreate)
| UpdateProduct (product_id : string) (product : ProductCreate)
| DeleteProduct (product_id : string)
| ToOrders (req : request).

Section Steps.

Variable PRODUCT_SERVICE_URL : string.

Definition step (s : system) (op : operation) : system :=
  match op with
  | CreateProduct product =>
      {| catalog := snd (create_product (catalog s) product);
         orders := orders s |}
  | UpdateProduct product_id product =>
      {| catalog := snd (update_product (catalog s) product_id product);
         orders := orders s |}
  | DeleteProduct product_id =>
      {| catalog := snd (delete_product (catalog s) product_id);
         orders := orders s |}
  | ToOrders req =>
      {| catalog := catalog s;
         orders := snd (handle PRODUCT_SERVICE_URL (orders s) req) |}
  end.

Definition steps (s : system) (ops : list operation) : system :=
  fold_left step ops s.

(** Every product that a lookup of the call reports comes from the
    catalog. *)
Definition served (db : Dict.t Product) (net : nat -> http_result) : Prop :=
  forall n p, net n = found p -> In p (Dict.values db).

(** The Order Service talks to this Product Service. *)
Definition wired_op (s : system) (op : operation) : Prop :=
  match op with
  | ToOrders (CreateOrder _ _ net) => served (catalog s) net
  | _ => True
  end.

Fixpoint wired (s : system) (ops : list operation) : Prop :=
  match ops with
  | [] => True
  | op :: rest => wired_op s op /\ wired (step s op) rest
  end.

(** No operation supplies a negative or non-finite price, or a negative
    quantity. *)
Definition sane_op (op : operation) : Prop :=
  match op with
  | CreateProduct product
  | UpdateProduct _ product =>
      Float.finite_nonneg (create_price product) = true
  | ToOrders (CreateOrder order _ _) =>
      Forall (fun item => 0 <= quantity item) (create_items order)
  | _ => True
  end.

End Steps.

End System.

(** ** Concrete scenarios, used to exercise the statements below *)

Module Scenario.

Import ProductService OrderService System.

Definition url : string := "http://localhost:8001".

Definition item (product_id : string) (quantity : Z) : OrderItem :=
  {| OrderService.product_id := product_id; OrderService.quantity := quantity |}.

Definition order_of (items : list OrderItem) : OrderCreate :=
  {| create_customer_id := "alice"; create_items := items |}.

Definition now : string := "2024-01-01T00:00:00".

(** [{name: "Widget", price: 9.99, category: "Misc"}] *)
Definition widget : ProductCreate :=
  {| create_name := "Widget";
     create_price := Float.of_ratio false 999 100;
     create_category := "Misc" |}.

(** A product with the price [-5.0]. *)
Definition refund : ProductCreate :=
  {| create_name := "Refund";
     create_price := Float.of_ratio true 5 1;
     create_category := "Misc" |}.

(** The answers of the initial catalog to the lookups of [items]. *)
Definition shop (items : list OrderItem) : nat -> http_result :=
  catalog_net products_db items.

(** A state that holds one order. *)
Definition one_order : state :=
  snd (snd (run (create_order url initial_state (order_of [item "2" 2]) now)
              (shop [item "2" 2]))).

(** The order it holds: two mice at 29.99. *)
Definition first_order : Order :=
  new_order initial_state (order_of [item "2" 2]) now
    (Float.add Float.zero
       (Float.mul (Float.of_ratio false 2999 100) (Float.to_float 2))).

(** A product priced [-5.0] is created (it gets the identifier 4) and one
    unit of it is ordered. *)
Definition refund_ops : list operation :=
  [ CreateProduct refund;
    ToOrders
      (CreateOrder (order_of [item "4" 1]) now
         (catalog_net (snd (create_product products_db refund)) [item "4" 1])) ].

End Scenario.

(** ** Invariants of the reachable states *)

Import ProductService OrderService System.

(** Every key of the order store is the decimal form of a number below the
    counter. *)
Definition keys_below (st : state) : Prop :=
  forall k, In k (Dict.keys (orders_db st)) ->
            exists n, k = str n /\ n < order_counter st.

(** Prices in the catalog are finite and not below zero, and the totals in
    the order store are not below zero. *)
Definition all_nonneg (s : system) : Prop :=
  (forall p, In p (Dict.values (catalog s)) ->
             Float.finite_nonneg (price p) = true)
  /\ (forall o, In o (Dict.values (orders_db (orders s))) ->
                Float.nonneg (total o) = true).

(** * Properties *)

(** ** The runtime on a few values *)

Example float_literal :
  Float.of_ratio false 999 100 = S754_finite false 5623870034678907 (-49).
Proof. reflexivity. Qed.

Example float_sum_inexact :
  Float.add (Float.of_ratio false 1 10) (Float.of_ratio false 2 10)
  <> Float.of_ratio false 3 10.
Proof. vm_compute. discriminate. Qed.

Example round2_ties_to_even :
  Float.round2 (Float.of_ratio false 1 8) = Float.of_ratio false 12 100
  /\ Float.round2 (Float.of_ratio false 3 8) = Float.of_ratio false 38 100.
Proof. split; reflexivity. Qed.

Example round2_binary_value :
  Float.round2 (Float.of_ratio false 2675 1000) = Float.of_ratio false 267 100.
Proof. reflexivity. Qed.

Example round2_keeps_sign :
  Float.round2 (Float.of_ratio true 1 1000) = S754_zero true.
Proof. reflexivity. Qed.

Example of_int_range :
  Float.of_int (2 ^ 1024) = None
  /\ Float.of_int (2 ^ 1024 - 2 ^ 970 - 1)
     = Some (S754_finite false 9007199254740991 971).
Proof. split; vm_compute; reflexivity. Qed.

Example str_values : str 0 = "0" /\ str 12 = "12" /\ str (-7) = "-7".
Proof. repeat split. Qed.

(** ** Dictionaries *)

Section DictFacts.
Context {V : Type}.
Implicit Types (d : Dict.t V) (k : string) (v : V).

Lemma dict_get_set_same k v d : Dict.get k (Dict.set k v d) = Some v.
Proof.
  induction d as [|[k' v'] d IH]; simpl.
  - now rewrite String.eqb_refl.
  - destruct (String.eqb k' k) eqn:E; simpl.
    + now rewrite String.eqb_refl.
    + now rewrite E.
Qed.

Lemma dict_get_set_other k k' v d :
  k' <> k -> Dict.get k' (Dict.set k v d) = Dict.get k' d.
Proof.
  intros Hne. induction d as [|[k0 v0] d IH]; simpl.
  - destruct (String.eqb_spec k k'); congruence.
  - destruct (String.eqb_spec k0 k) as [->|Hk]; simpl.
    + destruct (String.eqb_spec k k'); congruence.
    + now rewrite IH.
Qed.

Lemma dict_get_in_values k v d : Dict.get k d = Some v -> In v (Dict.values d).
Proof.
  induction d as [|[k0 v0] d IH]; simpl; [discriminate|].
  destruct (String.eqb k0 k).
  - intros [= ->]. now left.
  - intros H. right. now apply IH.
Qed.

Lemma dict_values_set k v d v' :
  In v' (Dict.values (Dict.set k v d)) -> v' = v \/ In v' (Dict.values d).
Proof.
  induction d as [|[k0 v0] d IH]; simpl.
  - intros [<-|[]]. now left.
  - destruct (String.eqb k0 k); simpl.
    + intros [<-|H]; auto.
    + intros [<-|H]; auto. destruct (IH H); auto.
Qed.

Lemma dict_values_del k d v' :
  In v' (Dict.values (Dict.del k d)) -> In v' (Dict.values d).
Proof.
  induction d as [|[k0 v0] d IH]; simpl; [tauto|].
  destruct (String.eqb k0 k); simpl; intuition.
Qed.

Lemma dict_get_none_keys k d : Dict.get k d = None <-> ~ In k (Dict.keys d).
Proof.
  induction d as [|[k0 v0] d IH]; simpl.
  - tauto.
  - destruct (String.eqb_spec k0 k) as [->|Hk].
    + split; [discriminate|]. intros H. exfalso. apply H. now left.
    + rewrite IH. intuition.
Qed.

Lemma dict_keys_set_present k v d :
  In k (Dict.keys d) -> Dict.keys (Dict.set k v d) = Dict.keys d.
Proof.
  induction d as [|[k0 v0] d IH]; simpl; [tauto|].
  destruct (String.eqb_spec k0 k) as [->|Hk]; simpl; [reflexivity|].
  intros [H|H]; [congruence|]. now rewrite IH.
Qed.

Lemma dict_keys_set_absent k v d :
  ~ In k (Dict.keys d) -> Dict.keys (Dict.set k v d) = (Dict.keys d ++ [k])%list.
Proof.
  induction d as [|[k0 v0] d IH]; simpl; [reflexivity|].
  destruct (String.eqb_spec k0 k) as [->|Hk]; simpl.
  - intros H. exfalso. apply H. now left.
  - intros H. rewrite IH; [reflexivity|]. intuition.
Qed.

End DictFacts.

(** ** Decimal strings *)

Lemma str_inj (n m : Z) : str n = str m -> n = m.
Proof.
  unfold str. intros H. apply DecimalZ.to_int_inj.
  assert (Hnil : forall z, Z.to_int z <> Decimal.Pos Decimal.Nil
                           /\ Z.to_int z <> Decimal.Neg Decimal.Nil).
  { intros [|p|p]; simpl; split; try discriminate;
      intros [= E]; now apply DecimalPos.Unsigned.to_uint_nonnil in E. }
  destruct (Hnil n) as [Hn1 Hn2], (Hnil m) as [Hm1 Hm2].
  pose proof (NilZero.isi _ Hn1 Hn2) as En.
  pose proof (NilZero.isi _ Hm1 Hm2) as Em.
  rewrite H in En. congruence.
Qed.

(** ** Running a handler *)

Lemma run_bind_Ret {A B : Type} (t : io A) (g : A -> B) net :
  run (bind t (fun a => Ret (g a))) net
  = (fst (run t net), g (snd (run t net))).
Proof.
  revert net. induction t as [a|u k IH]; intros net; simpl.
  - reflexivity.
  - rewrite IH. now destruct (run (k (net O)) (fun n => net (S n))).
Qed.

Lemma run_Get {A : Type} (u : string) (k : http_result -> io A) net :
  run (Get u k) net
  = ((u, net O) :: fst (run (k (net O)) (fun n => net (S n))),
     snd (run (k (net O)) (fun n => net (S n)))).
Proof. simpl. now destruct (run (k (net O)) (fun n => net (S n))). Qed.

(** ** The pricing loop *)

(** Only a 200 answer that carries a product lets the loop go on. *)
Lemma price_item_Ok item acc resp t :
  price_item item acc resp = Ok t ->
  exists p,
    resp = found p
    /\ Float.of_int (quantity item) = Some (Float.to_float (quantity item))
    /\ t = Float.add acc (Float.mul (price p) (Float.to_float (quantity item))).
Proof.
  unfold price_item, found. destruct resp as [s body|e]; [|discriminate].
  destruct (Z.eqb_spec s 200) as [->|Hs].
  - destruct body as [p|d]; [|discriminate].
    unfold Float.of_int.
    destruct (Float.to_float (quantity item)) eqn:E; try discriminate;
      intros [= <-]; exists p; auto.
  - destruct (Z.eqb s 404); discriminate.
Qed.

Lemma price_item_found item acc p :
  price_item item acc (found p)
  = match Float.of_int (quantity item) with
    | Some q => Ok (Float.add acc (Float.mul (price p) q))
    | None => Raise (OverflowError "int too large to convert to float")
    end.
Proof. reflexivity. Qed.

Lemma of_int_Some z q : Float.of_int z = Some q -> q = Float.to_float z.
Proof.
  unfold Float.of_int. destruct (Float.to_float z); congruence.
Qed.

(** The loop unfolded by one item. *)
Lemma run_price_items_cons url item rest acc net :
  run (price_items url (item :: rest) acc) net
  = match price_item item acc (net O) with
    | Ok acc' =>
        ((product_url url item, net O)
           :: fst (run (price_items url rest acc') (fun n => net (S n))),
         snd (run (price_items url rest acc') (fun n => net (S n))))
    | Raise e => ([(product_url url item, net O)], Raise e)
    end.
Proof.
  cbn [price_items]. rewrite run_Get.
  destruct (price_item item acc (net O)); reflexivity.
Qed.

(** When every lookup is answered with a product, a total that the loop
    returns is the sum of the lines. *)
Lemma price_items_sum url items : forall prods acc net t,
  List.length prods = List.length items ->
  (forall n p, nth_error prods n = Some p -> net n = found p) ->
  snd (run (price_items url items acc) net) = Ok t ->
  t = fold_left
        (fun a line =>
           Float.add a
             (Float.mul (price (fst line))
                (Float.to_float (quantity (snd line)))))
        (combine prods items) acc.
Proof.
  induction items as [|item rest IH]; intros [|p prods] acc net t Hlen Hnet;
    try discriminate; simpl combine; simpl fold_left.
  - simpl. congruence.
  - rewrite run_price_items_cons, (Hnet O p eq_refl), price_item_found.
    destruct (Float.of_int (quantity item)) as [q|] eqn:Eq; [|discriminate].
    apply of_int_Some in Eq. subst q. cbn [snd].
    apply IH; [simpl in Hlen; lia|].
    intros n p' Hn. now apply (Hnet (S n)).
Qed.

(** ... and the loop does return a total when the quantities are within the
    range of doubles. *)
Lemma price_items_returns url items : forall prods acc net,
  List.length prods = List.length items ->
  (forall n p, nth_error prods n = Some p -> net n = found p) ->
  Forall (fun item => Float.of_int (quantity item) <> None) items ->
  exists t, snd (run (price_items url items acc) net) = Ok t.
Proof.
  induction items as [|item rest IH]; intros [|p prods] acc net Hlen Hnet Hq;
    try discriminate.
  - exists acc. reflexivity.
  - rewrite run_price_items_cons, (Hnet O p eq_refl), price_item_found.
    inversion Hq as [|? ? Hitem Hrest]; subst.
    destruct (Float.of_int (quantity item)) as [q|]; [|congruence].
    cbn [snd]. apply (IH prods); [simpl in Hlen; lia| |assumption].
    intros n p' Hn. now apply (Hnet (S n)).
Qed.

(** Every exchange of the loop is a product found, except possibly the last
    one, which decides what the loop returns: an answer that is not a
    product is the answer to the lookup of some item [i], every lookup
    before it was answered with a product, and no lookup comes after it. *)
Lemma price_items_trace url items : forall acc net u resp,
  In (u, resp) (fst (run (price_items url items acc) net)) ->
  (exists p, resp = found p)
  \/ exists i item acc',
       nth_error items i = Some item
       /\ u = product_url url item
       /\ net i = resp
       /\ (forall j, (j < i)%nat -> exists p, net j = found p)
       /\ List.length (fst (run (price_items url items acc) net)) = S i
       /\ snd (run (price_items url items acc) net)
          = price_item item acc' resp.
Proof.
  induction items as [|item rest IH]; intros acc net u resp.
  - simpl. tauto.
  - rewrite run_price_items_cons.
    destruct (price_item item acc (net O)) as [acc1|e] eqn:E.
    + destruct (price_item_Ok _ _ _ _ E) as (p & Hp & _).
      cbn [fst snd]. intros [[= <- <-]|Hin].
      * left. now exists p.
      * destruct (IH _ _ _ _ Hin)
          as [Hl|(i & it & acc' & H1 & H2 & H3 & H4 & H5 & H6)];
          [now left|right].
        exists (S i), it, acc'. cbn [nth_error List.length].
        repeat split; auto.
        intros [|j] Hj; [now exists p|]. apply H4. lia.
    + cbn [fst snd]. intros [[= <- <-]|[]]. right.
      exists O, item, acc. cbn [nth_error List.length].
      repeat split; auto. intros j Hj. lia.
Qed.

(** [create_order] makes the exchanges of the loop and then finishes without
    any other. *)
Lemma run_create_order url st order now net :
  run (create_order url st order now) net
  = (fst (run (price_items url (create_items order) Float.zero) net),
     match snd (run (price_items url (create_items order) Float.zero) net) with
     | Raise e => (Raise e, st)
     | Ok t =>
         (Ok (new_order st order now t),
          store_order st (new_order st order now t))
     end).
Proof. unfold create_order. now rewrite run_bind_Ret. Qed.

(** ** Order creation *)

(** C1. When every lookup of an order-creation call is answered with a
    product, the order that the call returns and stores has as its total the
    sum over the items of reported price times quantity, rounded to two
    decimals; and the call does return an order as soon as the quantities are
    within the range of doubles. *)
Theorem create_order_total url st order now net prods :
  List.length prods = List.length (create_items order) ->
  (forall n p, nth_error prods n = Some p -> net n = found p) ->
  (forall o st',
      snd (run (create_order url st order now) net) = (Ok o, st') ->
      total o = Float.round2 (line_sum (combine prods (create_items order)))
      /\ Dict.get (OrderService.id o) (orders_db st') = Some o)
  /\ (Forall (fun item => Float.of_int (quantity item) <> None)
         (create_items order) ->
      exists o st', snd (run (create_order url st order now) net) = (Ok o, st')).
Proof.
  intros Hlen Hnet. rewrite run_create_order. cbn [snd]. split.
  - intros o st'.
    destruct (snd (run (price_items url (create_items order) Float.zero) net))
      as [t|e] eqn:E; [|discriminate].
    intros [= <- <-]. split.
    + cbn [total new_order]. f_equal.
      exact (price_items_sum _ _ _ _ _ _ Hlen Hnet E).
    + unfold store_order. cbn [orders_db OrderService.id new_order].
      apply dict_get_set_same.
  - intros Hq.
    destruct (price_items_returns url _ prods Float.zero net Hlen Hnet Hq)
      as [t ->].
    eauto.
Qed.

(** Three widgets at 9.99 cost 29.97. *)
Lemma create_order_total_witness :
  let p := with_id "1" Scenario.widget in
  let order := Scenario.order_of [Scenario.item "1" 3] in
  let net := answers [found p] in
  (forall o st',
      snd (run (create_order Scenario.url initial_state order Scenario.now) net)
      = (Ok o, st') ->
      total o = Float.round2 (line_sum (combine [p] (create_items order)))
      /\ Dict.get (OrderService.id o) (orders_db st') = Some o)
  /\ (Forall (fun item => Float.of_int (quantity item) <> None)
         (create_items order) ->
      exists o st',
        snd (run (create_order Scenario.url initial_state order Scenario.now) net)
        = (Ok o, st')).
Proof.
  intros p order net.
  apply (create_order_total Scenario.url initial_state order Scenario.now net [p]).
  - reflexivity.
  - intros [|[|n]] q; simpl; intros [= <-]; reflexivity.
Defined.

(** C3. A call that raises, for whatever reason, gives back the state it
    was given; a call that returns an order has made a single assignment to
    the store, under the identifier of that order, and has advanced the
    counter by one. *)
Theorem create_order_atomic url st order now net :
  match snd (run (create_order url st order now) net) with
  | (Raise _, st') => st' = st
  | (Ok o, st') =>
      orders_db st' = Dict.set (OrderService.id o) o (orders_db st)
      /\ order_counter st' = order_counter st + 1
  end.
Proof.
  rewrite run_create_order. cbn [snd].
  destruct (snd (run (price_items url (create_items order) Float.zero) net));
    [split|]; reflexivity.
Qed.

(** C4. A lookup that fails in transport makes the call raise 503 with a
    detail that ends in the text of the transport error; a lookup answered
    with a status other than 200 and 404 (every status outside 2xx and 404
    is one) makes the call raise that same status; the two exceptions are
    never equal, even when the status passed through is 503. Either way the
    state is left as it was. *)
Theorem create_order_upstream_failures url st order now net u :
  (forall e,
      In (u, RequestError e) (fst (run (create_order url st order now) net)) ->
      snd (run (create_order url st order now) net)
      = (Raise (HTTPException 503 ("Product Service unavailable: " ++ e)), st))
  /\ (forall s body,
      In (u, Response s body) (fst (run (create_order url st order now) net)) ->
      s <> 200 -> s <> 404 ->
      exists item,
        In item (create_items order)
        /\ u = product_url url item
        /\ snd (run (create_order url st order now) net)
           = (Raise (HTTPException s
                       ("Error fetching product " ++ product_id item)), st))
  /\ (forall e s pid,
      HTTPException 503 ("Product Service unavailable: " ++ e)
      <> HTTPException s ("Error fetching product " ++ pid)).
Proof.
  rewrite run_create_order. cbn [fst snd]. repeat split.
  - intros e Hin.
    destruct (price_items_trace _ _ _ _ _ _ Hin)
      as [[p Hp]|(i & item & acc' & _ & _ & _ & _ & _ & H6)];
      [discriminate|].
    now rewrite H6.
  - intros s body Hin Hs200 Hs404.
    destruct (price_items_trace _ _ _ _ _ _ Hin)
      as [[p Hp]|(i & item & acc' & H1 & H2 & _ & _ & _ & H6)].
    + injection Hp as -> _. congruence.
    + exists item. rewrite H6. repeat split; auto.
      * now apply nth_error_In in H1.
      * unfold price_item.
        destruct (Z.eqb_spec s 200); [congruence|].
        destruct (Z.eqb_spec s 404); [congruence|]. reflexivity.
  - intros e s pid. simpl. discriminate.
Qed.

(** A timeout on the second lookup, and a 500 answer to the first one. *)
Lemma create_order_upstream_failures_witness :
  let order := Scenario.order_of [Scenario.item "1" 1; Scenario.item "2" 1] in
  let p := with_id "1" Scenario.widget in
  snd (run (create_order Scenario.url Scenario.one_order order Scenario.now)
         (answers [found p; RequestError "timed out"]))
  = (Raise (HTTPException 503 "Product Service unavailable: timed out"),
     Scenario.one_order)
  /\ exists item,
       In item (create_items order)
       /\ "http://localhost:8001/products/1" = product_url Scenario.url item
       /\ snd (run (create_order Scenario.url Scenario.one_order order Scenario.now)
                 (answers [Response 500 (DetailBody "Internal Server Error")]))
          = (Raise (HTTPException 500
                      ("Error fetching product " ++ product_id item)),
             Scenario.one_order).
Proof.
  intros order p. split.
  - apply (proj1 (create_order_upstream_failures Scenario.url
             Scenario.one_order order Scenario.now
             (answers [found p; RequestError "timed out"])
             "http://localhost:8001/products/2")).
    vm_compute. right. left. reflexivity.
  - apply (proj1 (proj2 (create_order_upstream_failures Scenario.url
             Scenario.one_order order Scenario.now
             (answers [Response 500 (DetailBody "Internal Server Error")])
             "http://localhost:8001/products/1"))
             500 (DetailBody "Internal Server Error")).
    + vm_compute. left. reflexivity.
    + lia.
    + lia.
Defined.

(** C10. With no item the call sends no request and returns an order with
    the total [0.0], the status pending and the identifier that the counter
    gives; the order is in the store afterwards and the counter has moved to
    the next identifier. *)
Theorem create_order_empty url st customer now net :
  let order := {| create_customer_id := customer; create_items := [] |} in
  let o := {| OrderService.id := str (order_counter st);
              customer_id := customer;
              items := [];
              total := Float.zero;
              status := "pending";
              created_at := now |} in
  create_order url st order now = Ret (Ok o, store_order st o)
  /\ run (create_order url st order now) net = ([], (Ok o, store_order st o))
  /\ Dict.get (str (order_counter st)) (orders_db (store_order st o)) = Some o
  /\ order_counter (store_order st o) = order_counter st + 1.
Proof.
  intros order o. repeat split.
  apply dict_get_set_same.
Qed.

(** ** Status updates *)

Lemma is_valid_status_In s :
  is_valid_status s = true
  <-> In s ["pending"; "confirmed"; "shipped"; "delivered"; "canceled"].
Proof.
  unfold is_valid_status. rewrite existsb_exists. split.
  - intros (x & Hx & E). apply String.eqb_eq in E. now subst.
  - intros H. exists s. split; [assumption|apply String.eqb_refl].
Qed.

(** C6. For a stored order, a status outside the five allowed values is
    answered with the 400 exception and nothing changes; a status among them
    is answered with a message and becomes the status of the stored order. *)
Theorem update_order_status_validates st order_id o s :
  Dict.get order_id (orders_db st) = Some o ->
  (~ In s ["pending"; "confirmed"; "shipped"; "delivered"; "canceled"] ->
   exists detail,
     update_order_status st order_id s = (Raise (HTTPException 400 detail), st))
  /\ (In s ["pending"; "confirmed"; "shipped"; "delivered"; "canceled"] ->
      exists msg st',
        update_order_status st order_id s = (Ok msg, st')
        /\ Dict.get order_id (orders_db st') = Some (with_status o s)
        /\ status (with_status o s) = s).
Proof.
  intros Hget. unfold update_order_status. rewrite Hget.
  destruct (is_valid_status s) eqn:E; simpl; split; intros H.
  - apply is_valid_status_In in E. contradiction.
  - eexists _, _. split; [reflexivity|]. split; [|reflexivity].
    apply dict_get_set_same.
  - eexists. reflexivity.
  - apply is_valid_status_In in H. congruence.
Qed.

(** The stored order of the scenario is shipped, and is not "lost". *)
Lemma update_order_status_validates_witness :
  (~ In "lost" ["pending"; "confirmed"; "shipped"; "delivered"; "canceled"] ->
   exists detail,
     update_order_status Scenario.one_order "1" "lost"
     = (Raise (HTTPException 400 detail), Scenario.one_order))
  /\ exists o,
       Dict.get "1" (orders_db Scenario.one_order) = Some o
       /\ status o = "pending"
       /\ (In "shipped" ["pending"; "confirmed"; "shipped"; "delivered"; "canceled"] ->
           exists msg st',
             update_order_status Scenario.one_order "1" "shipped" = (Ok msg, st')
             /\ Dict.get "1" (orders_db st') = Some (with_status o "shipped")
             /\ status (with_status o "shipped") = "shipped").
Proof.
  split.
  - apply (update_order_status_validates Scenario.one_order "1"
             Scenario.first_order "lost").
    vm_compute. reflexivity.
  - eexists. split; [vm_compute; reflexivity|]. split; [reflexivity|].
    apply (update_order_status_validates Scenario.one_order "1" _ "shipped").
    vm_compute. reflexivity.
Defined.

(** ** Listings *)

Lemma truthy_Some c : c <> "" -> truthy (Some c) = true.
Proof.
  intros H. unfold truthy. now destruct (String.eqb_spec c "").
Qed.

Lemma get_products_Some db c :
  c <> "" ->
  get_products db (Some c)
  = filter (fun p => String.eqb (category p) c) (Dict.values db).
Proof. intros H. unfold get_products. now rewrite truthy_Some. Qed.

Lemma get_orders_Some st c :
  c <> "" ->
  get_orders st (Some c)
  = filter (fun o => String.eqb (customer_id o) c) (Dict.values (orders_db st)).
Proof. intros H. unfold get_orders. now rewrite truthy_Some. Qed.

(** C7, as the code has it: a filter that is not the empty string selects
    the products of that category, respectively the orders of that customer,
    by string equality and in the order of the store; with no filter, and
    with the empty string as filter, every stored record is listed. *)
Theorem listings_filter (db : Dict.t Product) (st : state) :
  (forall c, c <> "" ->
     get_products db (Some c)
     = filter (fun p => String.eqb (category p) c) (Dict.values db)
     /\ forall p, In p (get_products db (Some c))
                  <-> In p (Dict.values db) /\ category p = c)
  /\ (forall c, c <> "" ->
     get_orders st (Some c)
     = filter (fun o => String.eqb (customer_id o) c) (Dict.values (orders_db st))
     /\ forall o, In o (get_orders st (Some c))
                  <-> In o (Dict.values (orders_db st)) /\ customer_id o = c)
  /\ get_products db None = Dict.values db
  /\ get_orders st None = Dict.values (orders_db st)
  /\ get_products db (Some "") = Dict.values db
  /\ get_orders st (Some "") = Dict.values (orders_db st).
Proof.
  split; [|split; [|repeat split]].
  - intros c Hc. split; [now apply get_products_Some|].
    intros p. rewrite get_products_Some by assumption.
    now rewrite filter_In, String.eqb_eq.
  - intros c Hc. split; [now apply get_orders_Some|].
    intros o. rewrite get_orders_Some by assumption.
    now rewrite filter_In, String.eqb_eq.
Qed.

(** The initial catalog has three products in Electronics and none in
    Toys; the one order of the scenario is alice's. *)
Lemma listings_filter_witness :
  get_products products_db (Some "Electronics") = Dict.values products_db
  /\ get_products products_db (Some "Toys") = []
  /\ List.length (get_orders Scenario.one_order (Some "alice")) = 1%nat
  /\ get_orders Scenario.one_order (Some "bob") = [].
Proof.
  pose proof (listings_filter products_db Scenario.one_order)
    as (HP & HO & _).
  split; [|split; [|split]].
  - rewrite (proj1 (HP "Electronics" ltac:(discriminate))). reflexivity.
  - rewrite (proj1 (HP "Toys" ltac:(discriminate))). reflexivity.
  - rewrite (proj1 (HO "alice" ltac:(discriminate))). reflexivity.
  - rewrite (proj1 (HO "bob" ltac:(discriminate))). reflexivity.
Defined.

(** With the empty string as filter the listings give every record, also
    those whose category or customer is not the empty string. *)
Lemma listings_filter_counterexample :
  ~ (forall (db : Dict.t Product) c p,
       In p (get_products db (Some c))
       <-> In p (Dict.values db) /\ category p = c)
  /\ ~ (forall (st : state) c o,
          In o (get_orders st (Some c))
          <-> In o (Dict.values (orders_db st)) /\ customer_id o = c).
Proof.
  split.
  - intros H.
    destruct (H products_db ""
                {| ProductService.id := "1"; name := "Laptop";
                   price := Float.of_ratio false 99999 100;
                   category := "Electronics" |}) as [H1 _].
    destruct H1 as [_ E]; [now left|discriminate].
  - intros H.
    destruct (H Scenario.one_order ""
                Scenario.first_order) as [H1 _].
    destruct H1 as [_ E]; [vm_compute; now left|discriminate].
Qed.

(** ** Sequences of requests *)

Lemma handle_CreateOrder url st order now net :
  handle url st (CreateOrder order now net)
  = match snd (run (price_items url (create_items order) Float.zero) net) with
    | Raise e => (OrderReply (Raise e), st)
    | Ok t =>
        (OrderReply (Ok (new_order st order now t)),
         store_order st (new_order st order now t))
    end.
Proof.
  unfold handle. rewrite run_create_order. cbn [snd].
  now destruct (snd (run (price_items url (create_items order) Float.zero) net)).
Qed.

(** The identifiers handed out from a state onwards count up from its
    counter. *)
Lemma serve_created url reqs : forall st,
  let orders := created reqs (fst (serve url st reqs)) in
  map OrderService.id orders
  = map (fun i => str (order_counter st + Z.of_nat i))
      (seq 0 (List.length orders))
  /\ order_counter (snd (serve url st reqs))
     = order_counter st + Z.of_nat (List.length orders).
Proof.
  induction reqs as [|req reqs IH]; intros st.
  - simpl. split; [reflexivity|lia].
  - cbn [serve].
    destruct (handle url st req) as [rep st1] eqn:Hh.
    specialize (IH st1).
    destruct (serve url st1 reqs) as [reps st2] eqn:Hs.
    cbn [fst snd] in *.
    assert (Hother :
      order_counter st1 = order_counter st ->
      created reqs reps = created (req :: reqs) (rep :: reps) ->
      let orders := created (req :: reqs) (rep :: reps) in
      map OrderService.id orders
      = map (fun i => str (order_counter st + Z.of_nat i))
          (seq 0 (List.length orders))
      /\ order_counter st2 = order_counter st + Z.of_nat (List.length orders)).
    { intros Hc <-. cbn zeta in *. now rewrite <- Hc. }
    destruct req as [order now net|oid|c|oid s].
    + rewrite handle_CreateOrder in Hh.
      destruct (snd (run (price_items url (create_items order) Float.zero) net))
        as [t|e]; injection Hh as <- <-.
      * cbn [created]. cbn zeta in *. cbn [List.length seq map].
        destruct IH as [IH1 IH2]. split.
        -- f_equal.
           ++ cbn [OrderService.id new_order]. f_equal. lia.
           ++ rewrite IH1, <- seq_shift, map_map.
              apply map_ext. intros i. cbn [order_counter store_order].
              f_equal. lia.
        -- rewrite IH2. cbn [order_counter store_order]. lia.
      * now apply Hother.
    + injection Hh as <- <-. now apply Hother.
    + injection Hh as <- <-. now apply Hother.
    + cbn [handle] in Hh.
      destruct (update_order_status st oid s) as [r st'] eqn:Hu.
      injection Hh as <- <-. apply Hother; [|reflexivity].
      unfold update_order_status in Hu.
      destruct (Dict.get oid (orders_db st)); [|now injection Hu as _ <-].
      destruct (negb (is_valid_status s)); now injection Hu as _ <-.
Qed.

(** C5. Over any sequence of requests served from the start of the
    process, the identifiers of the orders created are "1", "2", "3", ... in
    the order of creation, and no identifier occurs twice. *)
Theorem order_ids_sequential url reqs :
  let orders := created reqs (fst (serve url initial_state reqs)) in
  map OrderService.id orders
  = map (fun i => str (Z.of_nat i)) (seq 1 (List.length orders))
  /\ str 1 = "1"
  /\ NoDup (map OrderService.id orders).
Proof.
  intros orders.
  assert (E : map OrderService.id orders
              = map (fun i => str (Z.of_nat i)) (seq 1 (List.length orders))).
  { subst orders. rewrite (proj1 (serve_created url reqs initial_state)).
    rewrite <- seq_shift, map_map. apply map_ext. intros i.
    cbn [order_counter initial_state]. f_equal. lia. }
  split; [exact E|]. split; [reflexivity|].
  rewrite E. apply Finite.Injective_map_NoDup; [|apply seq_NoDup].
  intros i j H. apply str_inj in H. lia.
Qed.

(** ** Stored orders are only touched by status updates *)

Lemma dict_keys_set_in {V : Type} (k k' : string) (v : V) (d : Dict.t V) :
  In k' (Dict.keys (Dict.set k v d)) -> k' = k \/ In k' (Dict.keys d).
Proof.
  induction d as [|[k0 v0] d IH]; simpl.
  - intros [<-|[]]. now left.
  - destruct (String.eqb_spec k0 k) as [->|Hk]; simpl.
    + intros [<-|H]; auto.
    + intros [<-|H]; auto. destruct (IH H); auto.
Qed.

Lemma dict_get_Some_keys {V : Type} (k : string) (v : V) (d : Dict.t V) :
  Dict.get k d = Some v -> In k (Dict.keys d).
Proof.
  intros H. destruct (in_dec string_dec k (Dict.keys d)) as [Hin|Hn];
    [assumption|].
  apply dict_get_none_keys in Hn. congruence.
Qed.

Lemma update_order_status_keys st order_id s :
  Dict.keys (orders_db (snd (update_order_status st order_id s)))
  = Dict.keys (orders_db st)
  /\ order_counter (snd (update_order_status st order_id s))
     = order_counter st.
Proof.
  unfold update_order_status.
  destruct (Dict.get order_id (orders_db st)) as [o|] eqn:Hget; [|now split].
  destruct (negb (is_valid_status s)); [now split|].
  cbn [snd orders_db order_counter]. split; [|reflexivity].
  apply dict_keys_set_present. now apply dict_get_Some_keys in Hget.
Qed.

Lemma store_order_keys_below st o : keys_below st -> keys_below (store_order st o).
Proof.
  intros Hinv k Hk. unfold store_order in *. cbn [orders_db order_counter] in *.
  apply dict_keys_set_in in Hk. destruct Hk as [->|Hk].
  - exists (order_counter st). split; [reflexivity|lia].
  - destruct (Hinv k Hk) as (n & -> & Hn). exists n. split; [reflexivity|lia].
Qed.

Lemma handle_keys_below url st req :
  keys_below st -> keys_below (snd (handle url st req)).
Proof.
  intros Hinv. destruct req as [order now net|oid|c|oid s].
  - rewrite handle_CreateOrder.
    destruct (snd (run (price_items url (create_items order) Float.zero) net));
      cbn [snd]; [now apply store_order_keys_below|assumption].
  - assumption.
  - assumption.
  - cbn [handle].
    pose proof (update_order_status_keys st oid s) as [Hk Hc].
    destruct (update_order_status st oid s) as [r st']. cbn [snd] in *.
    intros k Hin. rewrite Hk in Hin. rewrite Hc. now apply Hinv.
Qed.

Lemma serve_keys_below url reqs : forall st,
  keys_below st -> keys_below (snd (serve url st reqs)).
Proof.
  induction reqs as [|req reqs IH]; intros st Hinv; [assumption|].
  cbn [serve]. pose proof (handle_keys_below url st req Hinv) as H1.
  destruct (handle url st req) as [rep st1]. cbn [snd] in H1.
  specialize (IH st1 H1). now destruct (serve url st1 reqs).
Qed.

Lemma initial_keys_below : keys_below initial_state.
Proof. intros k []. Qed.

(** C9. A status update that succeeds replaces the status of the order it
    names and nothing else: the other fields of that order, every other
    entry of the store, the keys and the counter stay as they were. And in
    every state that the service reaches, a request that is not a status
    update leaves each stored order exactly as it is. *)
Theorem stored_orders_frame url :
  (forall st order_id s msg st',
      update_order_status st order_id s = (Ok msg, st') ->
      (exists o,
          Dict.get order_id (orders_db st) = Some o
          /\ Dict.get order_id (orders_db st') = Some (with_status o s)
          /\ OrderService.id (with_status o s) = OrderService.id o
          /\ customer_id (with_status o s) = customer_id o
          /\ items (with_status o s) = items o
          /\ total (with_status o s) = total o
          /\ created_at (with_status o s) = created_at o)
      /\ (forall k, k <> order_id ->
                    Dict.get k (orders_db st') = Dict.get k (orders_db st))
      /\ Dict.keys (orders_db st') = Dict.keys (orders_db st)
      /\ order_counter st' = order_counter st)
  /\ (forall reqs req,
      let st := snd (serve url initial_state reqs) in
      (forall order_id s, req <> UpdateOrderStatus order_id s) ->
      forall k o,
        Dict.get k (orders_db st) = Some o ->
        Dict.get k (orders_db (snd (handle url st req))) = Some o).
Proof.
  split.
  - intros st order_id s msg st' Hu.
    pose proof (update_order_status_keys st order_id s) as [Hk Hc].
    rewrite Hu in Hk, Hc. cbn [snd] in Hk, Hc.
    unfold update_order_status in Hu.
    destruct (Dict.get order_id (orders_db st)) as [o|] eqn:Hget;
      [|discriminate].
    destruct (negb (is_valid_status s)); [discriminate|].
    injection Hu as _ <-. cbn [orders_db]. repeat split; auto.
    + exists o. repeat split. apply dict_get_set_same.
    + intros k Hne. now apply dict_get_set_other.
  - intros reqs req st Hreq k o Hget.
    pose proof (serve_keys_below url reqs _ initial_keys_below) as Hinv.
    fold st in Hinv.
    destruct req as [order now net|oid|c|oid s]; try assumption.
    + rewrite handle_CreateOrder.
      destruct (snd (run (price_items url (create_items order) Float.zero) net));
        cbn [snd]; [|assumption].
      unfold store_order. cbn [orders_db].
      rewrite dict_get_set_other; [assumption|].
      intros ->. apply dict_get_Some_keys in Hget.
      destruct (Hinv _ Hget) as (n & E & Hn). apply str_inj in E. lia.
    + exfalso. now apply (Hreq oid s).
Qed.

(** Shipping the order of the scenario, and then serving an empty order. *)
Lemma stored_orders_frame_witness :
  (forall k, k <> "1" ->
     Dict.get k (orders_db (snd (update_order_status Scenario.one_order "1" "shipped")))
     = Dict.get k (orders_db Scenario.one_order))
  /\ Dict.get "1"
       (orders_db
          (snd (handle Scenario.url
                  (snd (serve Scenario.url initial_state
                          [CreateOrder (Scenario.order_of [Scenario.item "2" 2])
                             Scenario.now (Scenario.shop [Scenario.item "2" 2])]))
                  (CreateOrder (Scenario.order_of []) Scenario.now
                     (Scenario.shop [])))))
     = Some Scenario.first_order.
Proof.
  split.
  - apply (proj1 (stored_orders_frame Scenario.url) Scenario.one_order "1"
             "shipped" "Order 1 status updated to shipped"
             (snd (update_order_status Scenario.one_order "1" "shipped"))).
    vm_compute. reflexivity.
  - apply (proj2 (stored_orders_frame Scenario.url)
             [CreateOrder (Scenario.order_of [Scenario.item "2" 2])
                Scenario.now (Scenario.shop [Scenario.item "2" 2])]
             (CreateOrder (Scenario.order_of []) Scenario.now (Scenario.shop []))).
    + intros order_id s. discriminate.
    + vm_compute. reflexivity.
Defined.

(** ** Signs of floats *)

(** What [0 <= x] accepts: a zero of either sign, a positive finite number,
    or plus infinity. *)
Lemma nonneg_cases (x : float) :
  Float.nonneg x = true
  <-> match x with
      | S754_zero _ | S754_infinity false | S754_finite false _ _ => True
      | _ => False
      end.
Proof.
  destruct x as [s|s| |s m e]; try destruct s; cbn; intuition discriminate.
Qed.

Lemma iter_pos_invariant {A : Type} (P : A -> Prop) (f : A -> A) :
  (forall x, P x -> P (f x)) ->
  forall n x, P x -> P (iter_pos f n x).
Proof.
  intros Hf. induction n as [n IH|n IH|]; intros x Hx; simpl; auto.
Qed.

Lemma shr_1_nonneg mrs : 0 <= shr_m mrs -> 0 <= shr_m (shr_1 mrs).
Proof.
  destruct mrs as [m r s]. destruct m as [|p|p]; simpl; try lia;
    destruct p; simpl; lia.
Qed.

Lemma shr_fexp_nonneg m e l :
  0 <= m -> 0 <= shr_m (fst (shr_fexp Float.prec Float.emax m e l)).
Proof.
  intros Hm. unfold shr_fexp, shr.
  assert (H0 : 0 <= shr_m (shr_record_of_loc m l)).
  { destruct l as [|[]]; simpl; assumption. }
  destruct (fexp Float.prec Float.emax (Zdigits2 m + e) - e) as [|p|p];
    cbn [fst]; try assumption.
  apply (iter_pos_invariant (fun mrs => 0 <= shr_m mrs));
    [exact shr_1_nonneg|exact H0].
Qed.

Lemma round_nearest_even_nonneg m l : 0 <= m -> 0 <= round_nearest_even m l.
Proof.
  intros Hm. destruct l as [|[]]; simpl; try lia.
  destruct (Z.even m); lia.
Qed.

(** Rounding a non-negative mantissa never gives NaN and keeps the sign. *)
Lemma binary_round_aux_sign sx mx ex lx :
  0 <= mx ->
  match binary_round_aux Float.prec Float.emax sx mx ex lx with
  | S754_zero s | S754_infinity s | S754_finite s _ _ => s = sx
  | S754_nan => False
  end.
Proof.
  intros Hm. unfold binary_round_aux.
  pose proof (shr_fexp_nonneg mx ex lx Hm) as H1.
  destruct (shr_fexp Float.prec Float.emax mx ex lx) as [mrs' e'].
  cbn [fst] in H1.
  pose proof (shr_fexp_nonneg
                (round_nearest_even (shr_m mrs') (loc_of_shr_record mrs'))
                e' loc_Exact
                (round_nearest_even_nonneg _ _ H1)) as H2.
  destruct (shr_fexp Float.prec Float.emax
              (round_nearest_even (shr_m mrs') (loc_of_shr_record mrs'))
              e' loc_Exact) as [mrs'' e''].
  cbn [fst] in H2.
  destruct (shr_m mrs'') as [|p|p]; [reflexivity| |lia].
  destruct (Z.leb e'' (Float.emax - Float.prec)); reflexivity.
Qed.

Lemma binary_round_sign sx mx ex :
  match binary_round Float.prec Float.emax sx mx ex with
  | S754_zero s | S754_infinity s | S754_finite s _ _ => s = sx
  | S754_nan => False
  end.
Proof.
  unfold binary_round.
  destruct (shl_align mx ex
              (fexp Float.prec Float.emax (Z.pos (digits2_pos mx) + ex)))
    as [mz ez].
  apply binary_round_aux_sign. lia.
Qed.

(** A non-negative integer within range converts to a finite float that is
    not below zero. *)
Lemma of_int_nonneg z q :
  0 <= z -> Float.of_int z = Some q -> Float.finite_nonneg q = true.
Proof.
  intros Hz. unfold Float.of_int, Float.to_float, binary_normalize.
  destruct z as [|m|m]; [intros [= <-]; reflexivity| |lia].
  pose proof (binary_round_sign false m 0) as H.
  destruct (binary_round Float.prec Float.emax false m 0) as [s|s| |s m' e'];
    try discriminate; try contradiction; subst s; intros [= <-]; reflexivity.
Qed.

Lemma mul_nonneg p q :
  Float.finite_nonneg p = true -> Float.finite_nonneg q = true ->
  Float.nonneg (Float.mul p q) = true.
Proof.
  intros Hp Hq. apply nonneg_cases.
  destruct p as [sp|sp| |sp mp ep], q as [sq|sq| |sq mq eq];
    try discriminate; cbn [Float.mul SFmul]; try exact I.
  destruct sp, sq; try discriminate. cbn [xorb].
  pose proof (binary_round_aux_sign false (Z.pos (mp * mq)) (ep + eq)
                loc_Exact ltac:(lia)) as H.
  destruct (binary_round_aux Float.prec Float.emax false (Z.pos (mp * mq))
              (ep + eq) loc_Exact); try contradiction; subst; exact I.
Qed.

Lemma add_nonneg a b :
  Float.nonneg a = true -> Float.nonneg b = true ->
  Float.nonneg (Float.add a b) = true.
Proof.
  rewrite !nonneg_cases.
  destruct a as [sa|sa| |sa ma ea], b as [sb|sb| |sb mb eb];
    try contradiction; try destruct sa; try destruct sb;
    try contradiction; intros _ _; cbn [Float.add SFadd]; try exact I.
  cbn [cond_Zopp Z.add binary_normalize].
  match goal with
  | |- context [binary_round _ _ false ?m ?e] =>
      pose proof (binary_round_sign false m e) as H;
      destruct (binary_round Float.prec Float.emax false m e)
  end; try contradiction; subst; exact I.
Qed.

Lemma of_ratio_sign s n d :
  match Float.of_ratio s n d with
  | S754_zero s' | S754_infinity s' | S754_finite s' _ _ => s' = s
  | S754_nan => False
  end.
Proof.
  unfold Float.of_ratio. cbn [SFdiv]. unfold SFdiv_core_binary.
  set (m' := match _ - _ with Z.pos _ => _ | Z0 => _ | Z.neg _ => _ end).
  assert (Hm : 0 <= m').
  { subst m'. match goal with |- 0 <= match ?x with _ => _ end => destruct x end;
      try lia. apply Z.shiftl_nonneg. lia. }
  pose proof (Z.div_pos m' (Z.pos d) Hm ltac:(lia)) as Hq.
  unfold Z.div in Hq.
  destruct (Z.div_eucl m' (Z.pos d)) as [q r]. cbn [fst] in Hq.
  rewrite xorb_false_r. now apply binary_round_aux_sign.
Qed.

Lemma round2_nonneg x : Float.nonneg x = true -> Float.nonneg (Float.round2 x) = true.
Proof.
  rewrite !nonneg_cases.
  destruct x as [s|s| |s m e]; try destruct s; try contradiction;
    intros _; cbn [Float.round2]; try exact I.
  destruct e as [|e|e]; try exact I.
  destruct (Float.round_half_even (Z.pos m * 100) (2 ^ Z.pos e)) as [|n|n];
    try exact I.
  pose proof (of_ratio_sign false n 100) as H.
  destruct (Float.of_ratio false n 100); try contradiction; subst; exact I.
Qed.

(** ** Totals in the composed system *)

Lemma price_items_nonneg url items : forall acc net t,
  Float.nonneg acc = true ->
  (forall n p, net n = found p -> Float.finite_nonneg (price p) = true) ->
  Forall (fun item => 0 <= quantity item) items ->
  snd (run (price_items url items acc) net) = Ok t ->
  Float.nonneg t = true.
Proof.
  induction items as [|item rest IH]; intros acc net t Hacc Hnet Hq.
  - simpl. congruence.
  - rewrite run_price_items_cons.
    inversion Hq as [|? ? Hitem Hrest]; subst.
    destruct (price_item item acc (net O)) as [acc'|e] eqn:E; [|discriminate].
    destruct (price_item_Ok _ _ _ _ E) as (p & Hp & Hconv & ->).
    cbn [snd]. apply IH; [|intros n p' Hn; now apply (Hnet (S n))|assumption].
    apply add_nonneg; [assumption|].
    apply mul_nonneg; [now apply (Hnet O)|].
    now apply (of_int_nonneg (quantity item)).
Qed.

Lemma catalog_net_served db items : served db (catalog_net db items).
Proof.
  intros n p. unfold catalog_net, lookup, get_product.
  destruct (nth_error items n) as [item|]; [|discriminate].
  destruct (plain_id (product_id item)); [|discriminate].
  destruct (Dict.get (product_id item) db) as [p'|] eqn:E; [|discriminate].
  destruct (is_finite (price p')); [|discriminate].
  intros [= <-]. now apply dict_get_in_values in E.
Qed.

Lemma initial_all_nonneg : all_nonneg initial.
Proof.
  split.
  - intros p [<-|[<-|[<-|[]]]]; reflexivity.
  - intros o [].
Qed.

Lemma step_all_nonneg url s op :
  all_nonneg s -> wired_op s op -> sane_op op -> all_nonneg (step url s op).
Proof.
  intros [Hcat Hord] Hw Hs.
  destruct op as [product|pid product|pid|req]; cbn [step].
  - split; [|exact Hord]. cbn [catalog create_product snd].
    intros p Hp. apply dict_values_set in Hp. destruct Hp as [->|Hp]; auto.
  - split; [|exact Hord]. cbn [catalog]. unfold update_product.
    destruct (negb (Dict.mem pid (catalog s))); cbn [snd]; [exact Hcat|].
    intros p Hp. apply dict_values_set in Hp. destruct Hp as [->|Hp]; auto.
  - split; [|exact Hord]. cbn [catalog]. unfold delete_product.
    destruct (negb (Dict.mem pid (catalog s))); cbn [snd]; [exact Hcat|].
    intros p Hp. apply dict_values_del in Hp. auto.
  - split; [exact Hcat|]. cbn [orders].
    destruct req as [order now net|oid|c|oid st].
    + rewrite handle_CreateOrder.
      destruct (snd (run (price_items url (create_items order) Float.zero) net))
        as [t|e] eqn:E; cbn [snd]; [|exact Hord].
      intros o Ho. unfold store_order in Ho. cbn [orders_db] in Ho.
      apply dict_values_set in Ho. destruct Ho as [->|Ho]; [|auto].
      cbn [total new_order]. apply round2_nonneg.
      apply (price_items_nonneg url (create_items order) Float.zero net);
        [reflexivity| |exact Hs|exact E].
      intros n p Hn. apply Hcat. exact (Hw n p Hn).
    + exact Hord.
    + exact Hord.
    + cbn [handle]. unfold update_order_status.
      destruct (Dict.get oid (orders_db (orders s))) as [o0|] eqn:Hget;
        [|exact Hord].
      destruct (negb (is_valid_status st)); cbn [snd orders_db]; [exact Hord|].
      intros o Ho. apply dict_values_set in Ho. destruct Ho as [->|Ho]; [|auto].
      cbn [total with_status]. apply Hord. now apply dict_get_in_values in Hget.
Qed.

(** C8, as the code has it: over every sequence of operations on the two
    services in which each price given to product creation or update is
    finite and not below zero and each ordered quantity is not below zero,
    every order in the store has a total that is not below zero. *)
Theorem totals_nonneg url ops :
  wired url initial ops ->
  Forall sane_op ops ->
  forall o,
    In o (Dict.values (orders_db (orders (steps url initial ops)))) ->
    Float.nonneg (total o) = true.
Proof.
  intros Hw Hs.
  assert (H : forall s, all_nonneg s -> wired url s ops ->
                        all_nonneg (steps url s ops)).
  { clear Hw. induction Hs as [|op ops Hop Hops IH]; intros s Hinv Hw;
      [assumption|].
    destruct Hw as [Hw1 Hw2]. cbn [steps fold_left].
    apply IH; [|assumption]. now apply step_all_nonneg. }
  exact (proj2 (H initial initial_all_nonneg Hw)).
Qed.

(** A widget at 9.99 is created and three of them are ordered. *)
Lemma totals_nonneg_witness :
  let ops :=
    [ CreateProduct Scenario.widget;
      ToOrders
        (CreateOrder (Scenario.order_of [Scenario.item "4" 3]) Scenario.now
           (catalog_net (snd (create_product products_db Scenario.widget))
              [Scenario.item "4" 3])) ] in
  exists o,
    Dict.values (orders_db (orders (steps Scenario.url initial ops))) = [o]
    /\ total o = Float.of_ratio false 2997 100
    /\ Float.nonneg (total o) = true.
Proof.
  intros ops. eexists. split; [vm_compute; reflexivity|].
  split; [vm_compute; reflexivity|].
  apply (totals_nonneg Scenario.url ops).
  - split; [exact I|]. split; [|exact I]. apply catalog_net_served.
  - repeat constructor. cbn. lia.
  - vm_compute. left. reflexivity.
Defined.

(** No operation rejects a negative price: an order for one unit of a
    product priced [-5.0] is stored with the total [-5.0]. *)
Lemma totals_nonneg_counterexample :
  wired Scenario.url initial Scenario.refund_ops
  /\ exists o,
       In o (Dict.values
               (orders_db (orders (steps Scenario.url initial Scenario.refund_ops))))
       /\ total o = Float.of_ratio true 5 1
       /\ Float.nonneg (total o) = false
       /\ Float.negative (total o) = true.
Proof.
  split.
  - split; [exact I|]. split; [|exact I]. apply catalog_net_served.
  - eexists. split; [vm_compute; left; reflexivity|].
    repeat split; vm_compute; reflexivity.
Qed.

(** * Further properties of the two services *)

(** The keys of a catalog or store are the decimal forms of 1, 2, ..., in
    this order. *)
Definition sequential_keys {V : Type} (d : Dict.t V) : Prop :=
  Dict.keys d = map (fun i => str (Z.of_nat i)) (seq 1 (List.length d)).

(** An operation other than a deletion. *)
Definition keeps_products (op : operation) : Prop :=
  match op with
  | DeleteProduct _ => False
  | _ => True
  end.

(** The lookups of [items] against [db] all find a product, and the
    quantities are within the range of doubles; [prods] are the products
    found. *)
Fixpoint in_stock (db : Dict.t Product) (items : list OrderItem)
    (prods : list Product) : Prop :=
  match items, prods with
  | [], [] => True
  | item :: items', p :: prods' =>
      Dict.get (product_id item) db = Some p
      /\ Float.of_int (quantity item) <> None
      /\ in_stock db items' prods'
  | _, _ => False
  end.

(** ** More on dictionaries *)

Section DictMore.
Context {V : Type}.
Implicit Types (d : Dict.t V) (k : string) (v : V).

Lemma dict_mem_keys k d : Dict.mem k d = true <-> In k (Dict.keys d).
Proof.
  unfold Dict.mem. destruct (Dict.get k d) as [v|] eqn:E.
  - split; [intros _|reflexivity]. now apply dict_get_Some_keys in E.
  - apply dict_get_none_keys in E. split; [discriminate|contradiction].
Qed.

Lemma dict_length_keys d : List.length (Dict.keys d) = List.length d.
Proof. apply length_map. Qed.

Lemma dict_length_set_present k v d :
  In k (Dict.keys d) -> List.length (Dict.set k v d) = List.length d.
Proof.
  intros H. rewrite <- !dict_length_keys. now rewrite dict_keys_set_present.
Qed.

Lemma dict_length_set_absent k v d :
  ~ In k (Dict.keys d) -> List.length (Dict.set k v d) = S (List.length d).
Proof.
  intros H. rewrite <- !dict_length_keys. rewrite dict_keys_set_absent by assumption.
  rewrite length_app. simpl. lia.
Qed.

Lemma dict_set_set k v1 v2 d : Dict.set k v2 (Dict.set k v1 d) = Dict.set k v2 d.
Proof.
  induction d as [|[k0 v0] d IH]; simpl.
  - now rewrite String.eqb_refl.
  - destruct (String.eqb k0 k) eqn:E; simpl.
    + now rewrite String.eqb_refl.
    + now rewrite E, IH.
Qed.

Lemma dict_get_del_other k k' d :
  k' <> k -> Dict.get k' (Dict.del k d) = Dict.get k' d.
Proof.
  intros Hne. induction d as [|[k0 v0] d IH]; simpl; [reflexivity|].
  destruct (String.eqb_spec k0 k) as [->|Hk]; simpl.
  - destruct (String.eqb_spec k k'); congruence.
  - now rewrite IH.
Qed.

Lemma dict_keys_del_incl k k' d :
  In k' (Dict.keys (Dict.del k d)) -> In k' (Dict.keys d).
Proof.
  induction d as [|[k0 v0] d IH]; simpl; [tauto|].
  destruct (String.eqb k0 k); simpl; intuition.
Qed.

Lemma dict_get_del_same k d :
  NoDup (Dict.keys d) -> Dict.get k (Dict.del k d) = None.
Proof.
  induction d as [|[k0 v0] d IH]; simpl; [reflexivity|].
  intros Hnd. inversion Hnd as [|? ? Hnotin Hnd']; subst.
  destruct (String.eqb_spec k0 k) as [->|Hk]; simpl.
  - now apply dict_get_none_keys.
  - destruct (String.eqb_spec k0 k); [contradiction|]. now apply IH.
Qed.

Lemma dict_length_del k d :
  In k (Dict.keys d) -> S (List.length (Dict.del k d)) = List.length d.
Proof.
  induction d as [|[k0 v0] d IH]; simpl; [tauto|].
  destruct (String.eqb_spec k0 k) as [->|Hk]; simpl; [reflexivity|].
  intros [H|H]; [contradiction|]. now rewrite IH.
Qed.

Lemma dict_keys_del_NoDup k d :
  NoDup (Dict.keys d) -> NoDup (Dict.keys (Dict.del k d)).
Proof.
  induction d as [|[k0 v0] d IH]; simpl; [trivial|].
  intros Hnd. inversion Hnd as [|? ? Hnotin Hnd']; subst.
  destruct (String.eqb k0 k); simpl; [assumption|].
  constructor; [|now apply IH].
  intros Hin. apply Hnotin. now apply dict_keys_del_incl in Hin.
Qed.

Lemma dict_keys_set_NoDup k v d :
  NoDup (Dict.keys d) -> NoDup (Dict.keys (Dict.set k v d)).
Proof.
  intros Hnd. destruct (in_dec string_dec k (Dict.keys d)) as [Hin|Hn].
  - now rewrite dict_keys_set_present.
  - rewrite dict_keys_set_absent by assumption.
    apply NoDup_app; repeat split; auto.
    + constructor; [tauto|constructor].
    + intros x Hx [<-|[]]. contradiction.
Qed.

End DictMore.

(** ** The catalog *)

Lemma dict_len_length {V : Type} (d : Dict.t V) : Dict.len d = Z.of_nat (List.length d).
Proof. reflexivity. Qed.

(** X1. A product that was just created is found under the identifier it
    was given, with the name, price and category of the request, and the
    listing without a filter shows it. *)
Theorem create_product_get db product :
  let new := fst (create_product db product) in
  let db' := snd (create_product db product) in
  get_product db' (ProductService.id new) = Ok new
  /\ ProductService.id new = str (Dict.len db + 1)
  /\ name new = create_name product
  /\ price new = create_price product
  /\ category new = create_category product
  /\ In new (get_products db' None).
Proof.
  cbn zeta. unfold create_product. cbn [fst snd]. unfold get_product.
  cbn [ProductService.id with_id]. rewrite dict_get_set_same.
  split; [reflexivity|]. do 4 (split; [reflexivity|]).
  unfold get_products. cbn [truthy].
  apply (dict_get_in_values (str (Dict.len db + 1))), dict_get_set_same.
Qed.

(** X2. Creating a product touches no entry but the one under the new
    identifier, the decimal form of the size plus one. When that identifier
    is free the catalog gains one entry at its end; when a product already
    has it (which deletions make possible) the catalog keeps its size and
    keys, and that product is replaced by the new one. *)
Theorem create_product_effect db product :
  let new_id := str (Dict.len db + 1) in
  let db' := snd (create_product db product) in
  (forall k, k <> new_id -> Dict.get k db' = Dict.get k db)
  /\ (Dict.mem new_id db = false ->
      Dict.len db' = Dict.len db + 1
      /\ Dict.keys db' = (Dict.keys db ++ [new_id])%list)
  /\ (forall old,
      Dict.get new_id db = Some old ->
      Dict.len db' = Dict.len db
      /\ Dict.keys db' = Dict.keys db
      /\ get_product db' new_id = Ok (with_id new_id product)).
Proof.
  cbn zeta. unfold create_product. cbn [snd]. split; [|split].
  - intros k Hk. now apply dict_get_set_other.
  - intros Hmem.
    assert (Hn : ~ In (str (Dict.len db + 1)) (Dict.keys db)).
    { intros Hin. apply dict_mem_keys in Hin. congruence. }
    split.
    + rewrite !dict_len_length, dict_length_set_absent by assumption. lia.
    + now apply dict_keys_set_absent.
  - intros old Hget. apply dict_get_Some_keys in Hget. split; [|split].
    + now rewrite !dict_len_length, dict_length_set_present.
    + now apply dict_keys_set_present.
    + unfold get_product. now rewrite dict_get_set_same.
Qed.

(** On the initial catalog the identifier 4 is free; once product 1 is
    deleted the next creation takes the identifier 3 and replaces the
    keyboard. *)
Lemma create_product_effect_witness :
  (Dict.len (snd (create_product products_db Scenario.widget)) = 4
   /\ Dict.keys (snd (create_product products_db Scenario.widget))
      = ["1"; "2"; "3"; "4"])
  /\ (Dict.len (snd (create_product (Dict.del "1" products_db) Scenario.widget)) = 2
      /\ Dict.keys (snd (create_product (Dict.del "1" products_db) Scenario.widget))
         = ["2"; "3"]
      /\ get_product (snd (create_product (Dict.del "1" products_db) Scenario.widget))
           "3"
         = Ok (with_id "3" Scenario.widget)).
Proof.
  split.
  - apply (proj1 (proj2 (create_product_effect products_db Scenario.widget))).
    reflexivity.
  - apply (proj2 (proj2 (create_product_effect (Dict.del "1" products_db)
                           Scenario.widget))
             {| ProductService.id := "3"; name := "Keyboard";
                price := Float.of_ratio false 7999 100;
                category := "Electronics" |}).
    reflexivity.
Defined.

(** X4. Updating a product that is not in the catalog raises 404 and changes
    nothing. Updating one that is replaces its name, price and category,
    keeps its identifier and its place, and leaves every other product as it
    is; a lookup afterwards gives the new record. *)
Theorem update_product_effect db pid product :
  (Dict.mem pid db = false ->
   update_product db pid product
   = (Raise (HTTPException 404 "Product not found"), db))
  /\ (Dict.mem pid db = true ->
      let db' := snd (update_product db pid product) in
      fst (update_product db pid product) = Ok (with_id pid product)
      /\ get_product db' pid = Ok (with_id pid product)
      /\ ProductService.id (with_id pid product) = pid
      /\ (forall k, k <> pid -> Dict.get k db' = Dict.get k db)
      /\ Dict.keys db' = Dict.keys db).
Proof.
  unfold update_product. split; intros Hmem; rewrite Hmem; cbn [negb].
  - reflexivity.
  - cbn zeta. cbn [fst snd]. split; [reflexivity|].
    unfold get_product. rewrite dict_get_set_same. split; [reflexivity|].
    split; [reflexivity|]. split.
    + intros k Hk. now apply dict_get_set_other.
    + apply dict_keys_set_present. now apply dict_mem_keys.
Qed.

(** Product 9 is not in the initial catalog; product 2 is. *)
Lemma update_product_effect_witness :
  update_product products_db "9" Scenario.widget
  = (Raise (HTTPException 404 "Product not found"), products_db)
  /\ (let db' := snd (update_product products_db "2" Scenario.widget) in
      fst (update_product products_db "2" Scenario.widget)
      = Ok (with_id "2" Scenario.widget)
      /\ get_product db' "2" = Ok (with_id "2" Scenario.widget)
      /\ ProductService.id (with_id "2" Scenario.widget) = "2"
      /\ (forall k, k <> "2" -> Dict.get k db' = Dict.get k products_db)
      /\ Dict.keys db' = Dict.keys products_db).
Proof.
  split.
  - apply (proj1 (update_product_effect products_db "9" Scenario.widget)).
    reflexivity.
  - apply (proj2 (update_product_effect products_db "2" Scenario.widget)).
    reflexivity.
Defined.

Lemma sequential_keys_next_free {V : Type} (d : Dict.t V) :
  sequential_keys d -> ~ In (str (Dict.len d + 1)) (Dict.keys d).
Proof.
  unfold sequential_keys. intros -> Hin. apply in_map_iff in Hin.
  destruct Hin as (i & E & Hi). apply str_inj in E. apply in_seq in Hi.
  rewrite dict_len_length in E. lia.
Qed.

Lemma sequential_keys_set_next {V : Type} (d : Dict.t V) (v : V) :
  sequential_keys d -> sequential_keys (Dict.set (str (Dict.len d + 1)) v d).
Proof.
  intros H. pose proof (sequential_keys_next_free d H) as Hfree.
  unfold sequential_keys in *.
  rewrite dict_keys_set_absent, dict_length_set_absent by assumption.
  rewrite seq_S, map_app, <- H. cbn [map]. do 3 f_equal.
  rewrite dict_len_length. lia.
Qed.

Lemma sequential_keys_set_present {V : Type} (d : Dict.t V) (k : string) (v : V) :
  In k (Dict.keys d) -> sequential_keys d -> sequential_keys (Dict.set k v d).
Proof.
  intros Hin H. unfold sequential_keys in *.
  now rewrite dict_keys_set_present, dict_length_set_present.
Qed.

Lemma step_sequential url s op :
  keeps_products op ->
  sequential_keys (catalog s) -> sequential_keys (catalog (step url s op)).
Proof.
  intros Hop H. destruct op as [product|pid product|pid|req]; cbn [step catalog].
  - unfold create_product. cbn [snd]. now apply sequential_keys_set_next.
  - unfold update_product.
    destruct (Dict.mem pid (catalog s)) eqn:E; cbn [negb snd]; [|assumption].
    apply sequential_keys_set_present; [|assumption]. now apply dict_mem_keys.
  - contradiction.
  - assumption.
Qed.

(** X3. As long as no product is deleted, the identifiers in the catalog
    are "1", "2", ..., up to its size, in the order of creation, so the
    identifier of the next creation is free: no creation replaces a
    product. *)
Theorem catalog_ids_sequential url ops :
  Forall keeps_products ops ->
  let db := catalog (steps url initial ops) in
  sequential_keys db
  /\ Dict.mem (str (Dict.len db + 1)) db = false
  /\ forall product,
       Dict.len (snd (create_product db product)) = Dict.len db + 1.
Proof.
  intros Hops.
  assert (H : forall s, sequential_keys (catalog s) ->
                        sequential_keys (catalog (steps url s ops))).
  { induction Hops as [|op ops Hop Hops IH]; intros s Hs; [assumption|].
    cbn [steps fold_left]. apply IH. now apply step_sequential. }
  specialize (H initial eq_refl). cbn zeta.
  pose proof (sequential_keys_next_free _ H) as Hfree.
  split; [assumption|]. split.
  - destruct (Dict.mem _ _) eqn:E; [|reflexivity].
    apply dict_mem_keys in E. contradiction.
  - intros product. unfold create_product. cbn [snd].
    rewrite !dict_len_length, dict_length_set_absent by assumption. lia.
Qed.

(** A widget is created, product 2 is updated and an order is placed. *)
Lemma catalog_ids_sequential_witness :
  let ops := [ CreateProduct Scenario.widget;
               UpdateProduct "2" Scenario.refund;
               ToOrders (GetOrders None);
               CreateProduct Scenario.refund ] in
  let db := catalog (steps Scenario.url initial ops) in
  Dict.keys db = ["1"; "2"; "3"; "4"; "5"]
  /\ sequential_keys db
  /\ Dict.mem (str (Dict.len db + 1)) db = false
  /\ forall product,
       Dict.len (snd (create_product db product)) = Dict.len db + 1.
Proof.
  intros ops db. split; [reflexivity|].
  apply (catalog_ids_sequential Scenario.url ops).
  repeat constructor.
Defined.

Lemma catalog_keys_NoDup url ops : forall s,
  NoDup (Dict.keys (catalog s)) ->
  NoDup (Dict.keys (catalog (steps url s ops))).
Proof.
  induction ops as [|op ops IH]; intros s Hs; [assumption|].
  cbn [steps fold_left]. apply IH.
  destruct op as [product|pid product|pid|req]; cbn [step catalog].
  - now apply dict_keys_set_NoDup.
  - unfold update_product. destruct (negb (Dict.mem pid (catalog s)));
      cbn [snd]; [assumption|now apply dict_keys_set_NoDup].
  - unfold delete_product. destruct (negb (Dict.mem pid (catalog s)));
      cbn [snd]; [assumption|now apply dict_keys_del_NoDup].
  - assumption.
Qed.

Lemma initial_catalog_NoDup : NoDup (Dict.keys (catalog initial)).
Proof.
  repeat constructor; simpl; intuition discriminate.
Qed.

(** X5. In every catalog that the service reaches, deleting a product that
    is not there raises 404 and changes nothing; deleting one that is there
    removes exactly that product: a lookup of it raises 404 afterwards, the
    other products are as before, and the size went down by one. *)
Theorem delete_product_effect url ops pid :
  let db := catalog (steps url initial ops) in
  (Dict.mem pid db = false ->
   delete_product db pid
   = (Raise (HTTPException 404 "Product not found"), db))
  /\ (Dict.mem pid db = true ->
      let db' := snd (delete_product db pid) in
      fst (delete_product db pid) = Ok "Product deleted successfully"
      /\ get_product db' pid = Raise (HTTPException 404 "Product not found")
      /\ (forall k, k <> pid -> Dict.get k db' = Dict.get k db)
      /\ Dict.len db' = Dict.len db - 1).
Proof.
  cbn zeta.
  pose proof (catalog_keys_NoDup url ops initial initial_catalog_NoDup) as Hnd.
  unfold delete_product. split; intros Hmem; rewrite Hmem; cbn [negb fst snd].
  - reflexivity.
  - split; [reflexivity|]. split; [|split].
    + unfold get_product. now rewrite dict_get_del_same.
    + intros k Hk. now apply dict_get_del_other.
    + apply dict_mem_keys in Hmem. apply (dict_length_del pid) in Hmem.
      rewrite !dict_len_length. lia.
Qed.

(** After a widget is created, product 9 cannot be deleted and product 4
    can. *)
Lemma delete_product_effect_witness :
  let ops := [CreateProduct Scenario.widget] in
  let db := catalog (steps Scenario.url initial ops) in
  delete_product db "9" = (Raise (HTTPException 404 "Product not found"), db)
  /\ (let db' := snd (delete_product db "4") in
      fst (delete_product db "4") = Ok "Product deleted successfully"
      /\ get_product db' "4" = Raise (HTTPException 404 "Product not found")
      /\ (forall k, k <> "4" -> Dict.get k db' = Dict.get k db)
      /\ Dict.len db' = Dict.len db - 1).
Proof.
  intros ops db. split.
  - apply (proj1 (delete_product_effect Scenario.url ops "9")). reflexivity.
  - apply (proj2 (delete_product_effect Scenario.url ops "4")). reflexivity.
Defined.

(** ** More on order creation and status updates *)

(** X6. An order that a creation call returns is found afterwards under
    its identifier; the identifier is the counter in decimal, the customer
    and the items are those submitted, in the submitted order, the status is
    pending and the creation time is the time of the call. *)
Theorem create_order_get url st order now net o st' :
  snd (run (create_order url st order now) net) = (Ok o, st') ->
  get_order st' (OrderService.id o) = Ok o
  /\ OrderService.id o = str (order_counter st)
  /\ customer_id o = create_customer_id order
  /\ items o = create_items order
  /\ status o = "pending"
  /\ created_at o = now.
Proof.
  rewrite run_create_order. cbn [snd].
  destruct (snd (run (price_items url (create_items order) Float.zero) net))
    as [t|e]; [|discriminate].
  intros [= <- <-]. split; [|repeat split].
  unfold get_order, store_order. cbn [orders_db OrderService.id new_order].
  now rewrite dict_get_set_same.
Qed.

(** Two mice ordered from the initial catalog. *)
Lemma create_order_get_witness :
  get_order Scenario.one_order (OrderService.id Scenario.first_order)
  = Ok Scenario.first_order
  /\ OrderService.id Scenario.first_order = str (order_counter initial_state)
  /\ customer_id Scenario.first_order = "alice"
  /\ items Scenario.first_order = [Scenario.item "2" 2]
  /\ status Scenario.first_order = "pending"
  /\ created_at Scenario.first_order = Scenario.now.
Proof.
  apply (create_order_get Scenario.url initial_state
           (Scenario.order_of [Scenario.item "2" 2]) Scenario.now
           (Scenario.shop [Scenario.item "2" 2])
           Scenario.first_order Scenario.one_order).
  vm_compute. reflexivity.
Defined.

Lemma update_order_status_valid st order_id o s :
  Dict.get order_id (orders_db st) = Some o ->
  is_valid_status s = true ->
  update_order_status st order_id s
  = (Ok ("Order " ++ order_id ++ " status updated to " ++ s),
     {| orders_db := Dict.set order_id (with_status o s) (orders_db st);
        order_counter := order_counter st |}).
Proof.
  intros Hget Hs. unfold update_order_status. now rewrite Hget, Hs.
Qed.

(** X7. Status updates follow no transition graph and the last one wins:
    after two updates of a stored order with allowed values, the state is
    the one that the second update alone would have given, whatever the
    first value was. *)
Theorem update_order_status_twice st order_id o s1 s2 :
  Dict.get order_id (orders_db st) = Some o ->
  In s1 ["pending"; "confirmed"; "shipped"; "delivered"; "canceled"] ->
  In s2 ["pending"; "confirmed"; "shipped"; "delivered"; "canceled"] ->
  let st1 := snd (update_order_status st order_id s1) in
  update_order_status st1 order_id s2 = update_order_status st order_id s2
  /\ Dict.get order_id (orders_db (snd (update_order_status st1 order_id s2)))
     = Some (with_status o s2).
Proof.
  intros Hget H1 H2. apply is_valid_status_In in H1, H2. cbn zeta.
  rewrite (update_order_status_valid st order_id o s1 Hget H1). cbn [snd].
  rewrite (update_order_status_valid
             {| orders_db :=
                  Dict.set order_id (with_status o s1) (orders_db st);
                order_counter := order_counter st |}
             order_id (with_status o s1) s2);
    [|apply dict_get_set_same|exact H2].
  rewrite (update_order_status_valid st order_id o s2 Hget H2).
  cbn [orders_db order_counter snd]. rewrite dict_set_set.
  split; [reflexivity|]. apply dict_get_set_same.
Qed.

(** The order of the scenario goes from delivered back to pending. *)
Lemma update_order_status_twice_witness :
  let st1 := snd (update_order_status Scenario.one_order "1" "delivered") in
  update_order_status st1 "1" "pending"
  = update_order_status Scenario.one_order "1" "pending"
  /\ Dict.get "1" (orders_db (snd (update_order_status st1 "1" "pending")))
     = Some (with_status Scenario.first_order "pending").
Proof.
  apply (update_order_status_twice Scenario.one_order "1" Scenario.first_order
           "delivered" "pending").
  - vm_compute. reflexivity.
  - simpl. tauto.
  - simpl. tauto.
Defined.

Lemma combine_nil_r {A B : Type} (l : list A) : combine l (@nil B) = [].
Proof. now destruct l. Qed.

(** The exchanges of the loop are the lookups of the first items, each with
    the answer of the network at its position. *)
Lemma price_items_exchanges url items : forall acc net,
  let tr := fst (run (price_items url items acc) net) in
  tr = combine (map (product_url url) items) (map net (seq 0 (List.length tr)))
  /\ (List.length tr <= List.length items)%nat
  /\ (forall t, snd (run (price_items url items acc) net) = Ok t ->
                List.length tr = List.length items)
  /\ (forall e, snd (run (price_items url items acc) net) = Raise e ->
                (1 <= List.length tr)%nat).
Proof.
  induction items as [|item rest IH]; intros acc net; cbn zeta.
  - simpl. repeat split; auto. discriminate.
  - rewrite run_price_items_cons.
    destruct (price_item item acc (net O)) as [acc1|e] eqn:E; cbn [fst snd].
    + destruct (IH acc1 (fun n => net (S n))) as (H1 & H2 & H3 & H4).
      cbn zeta in *. cbn [List.length seq map combine].
      rewrite <- seq_shift, map_map. repeat split.
      * f_equal. exact H1.
      * lia.
      * intros t Ht. now rewrite (H3 t Ht).
      * intros e He. lia.
    + cbn [List.length seq map combine]. rewrite combine_nil_r.
      repeat split; auto; try lia. discriminate.
Qed.

(** X8. The lookups of a creation call go out one per item, in the order of
    the items, each to the address of its item: the exchange at a position
    is the lookup of the item at that position with the answer of the
    network at that position. No item is looked up twice or skipped; a call
    that returns an order has looked up every item, and a call that raises
    has sent at least one lookup. *)
Theorem create_order_lookups url st order now net :
  let tr := fst (run (create_order url st order now) net) in
  tr = combine (map (product_url url) (create_items order))
         (map net (seq 0 (List.length tr)))
  /\ (List.length tr <= List.length (create_items order))%nat
  /\ (forall o st', snd (run (create_order url st order now) net) = (Ok o, st') ->
                    List.length tr = List.length (create_items order))
  /\ (forall e st', snd (run (create_order url st order now) net) = (Raise e, st') ->
                    (1 <= List.length tr)%nat).
Proof.
  rewrite run_create_order. cbn [fst snd]. cbn zeta.
  destruct (price_items_exchanges url (create_items order) Float.zero net)
    as (H1 & H2 & H3 & H4). cbn zeta in *.
  split; [exact H1|]. split; [exact H2|]. split.
  - intros o st'.
    destruct (snd (run (price_items url (create_items order) Float.zero) net))
      as [t|e]; [|discriminate].
    intros _. now apply (H3 t).
  - intros e st'.
    destruct (snd (run (price_items url (create_items order) Float.zero) net))
      as [t|e0]; [discriminate|].
    intros _. now apply (H4 e0).
Qed.

(** Products 1 and 999 are looked up, product 3 is not. *)
Lemma create_order_lookups_witness :
  let order := Scenario.order_of [Scenario.item "1" 1; Scenario.item "999" 2;
                                  Scenario.item "3" 1] in
  let net := Scenario.shop (create_items order) in
  let tr := fst (run (create_order Scenario.url initial_state order Scenario.now) net) in
  map fst tr = ["http://localhost:8001/products/1";
                "http://localhost:8001/products/999"]
  /\ tr = combine (map (product_url Scenario.url) (create_items order))
            (map net (seq 0 (List.length tr)))
  /\ (List.length tr <= List.length (create_items order))%nat
  /\ (forall o st',
        snd (run (create_order Scenario.url initial_state order Scenario.now) net)
        = (Ok o, st') ->
        List.length tr = List.length (create_items order))
  /\ (forall e st',
        snd (run (create_order Scenario.url initial_state order Scenario.now) net)
        = (Raise e, st') ->
        (1 <= List.length tr)%nat).
Proof.
  intros order net tr. split; [reflexivity|].
  exact (create_order_lookups Scenario.url initial_state order Scenario.now net).
Defined.

Lemma combine_app_exact {A B : Type} (us : list A) (x : A) (post : list A) :
  forall rs : list B,
    List.length rs = List.length (us ++ [x])%list ->
    combine (us ++ x :: post)%list rs = combine (us ++ [x])%list rs.
Proof.
  induction us as [|u us IH]; intros [|r rs] Hl; try discriminate;
    cbn [app combine].
  - destruct rs; [|discriminate]. now rewrite combine_nil_r.
  - f_equal. apply IH. simpl in Hl. lia.
Qed.

(** The loop stops at the first item whose answer makes the body raise,
    when the items before it were all priced. *)
Lemma price_items_stops url pre : forall item post acc net e,
  (forall n, (n < List.length pre)%nat -> exists p, net n = found p) ->
  Forall (fun it => Float.of_int (quantity it) <> None) pre ->
  (forall acc', price_item item acc' (net (List.length pre)) = Raise e) ->
  snd (run (price_items url (pre ++ item :: post)%list acc) net) = Raise e
  /\ List.length (fst (run (price_items url (pre ++ item :: post)%list acc) net))
     = S (List.length pre).
Proof.
  induction pre as [|it pre IH]; intros item post acc net e Hnet Hq Hraise.
  - cbn [app]. rewrite run_price_items_cons. cbn [List.length] in Hraise.
    rewrite Hraise. split; reflexivity.
  - cbn [app]. rewrite run_price_items_cons.
    destruct (Hnet O ltac:(simpl; lia)) as [p Hp]. rewrite Hp, price_item_found.
    inversion Hq as [|? ? Hit Hpre]; subst.
    destruct (Float.of_int (quantity it)) as [q|]; [|congruence].
    cbn [fst snd List.length].
    destruct (IH item post (Float.add acc (Float.mul (price p) q))
                (fun n => net (S n)) e) as [H1 H2]; auto.
    intros n Hn. apply (Hnet (S n)). simpl. lia.
Qed.

(** X9. Two answers make the handler fail with an exception that is not an
    HTTP error, after the items before were priced: a product whose
    quantity is beyond the range of doubles raises [OverflowError] when the
    price is multiplied, although its lookup went well; and a 200 answer
    whose object has no price raises [KeyError]. In both cases nothing is
    stored, the counter stays, and the items after are not looked up. *)
Theorem create_order_uncaught url st order now net pre item post :
  create_items order = (pre ++ item :: post)%list ->
  (forall n, (n < List.length pre)%nat -> exists p, net n = found p) ->
  Forall (fun it => Float.of_int (quantity it) <> None) pre ->
  ((exists p, net (List.length pre) = found p) ->
   Float.of_int (quantity item) = None ->
   run (create_order url st order now) net
   = (combine (map (product_url url) (pre ++ [item])%list)
        (map net (seq 0 (S (List.length pre)))),
      (Raise (OverflowError "int too large to convert to float"), st)))
  /\ ((exists d, net (List.length pre) = Response 200 (DetailBody d)) ->
      run (create_order url st order now) net
      = (combine (map (product_url url) (pre ++ [item])%list)
           (map net (seq 0 (S (List.length pre)))),
         (Raise (KeyError "price"), st))).
Proof.
  intros Hitems Hnet Hq.
  assert (H : forall e,
             (forall acc', price_item item acc' (net (List.length pre)) = Raise e) ->
             run (create_order url st order now) net
             = (combine (map (product_url url) (pre ++ [item])%list)
                  (map net (seq 0 (S (List.length pre)))),
                (Raise e, st))).
  { intros e He. rewrite run_create_order, Hitems.
    destruct (price_items_stops url pre item post Float.zero net e Hnet Hq He)
      as [H1 H2].
    rewrite H1. f_equal.
    destruct (price_items_exchanges url (pre ++ item :: post)%list Float.zero net)
      as (H3 & _). cbn zeta in H3. rewrite H2 in H3. rewrite H3.
    rewrite !map_app. cbn [map].
    apply combine_app_exact.
    rewrite length_map, length_seq, length_app, length_map. simpl. lia. }
  split.
  - intros [p Hp] Hover. apply H. intros acc'.
    now rewrite Hp, price_item_found, Hover.
  - intros [d Hd]. apply H. intros acc'. now rewrite Hd.
Qed.

(** A mouse is priced, then a laptop is ordered in a quantity beyond the
    range of doubles; and an answer without a price. *)
Lemma create_order_uncaught_witness :
  let order := Scenario.order_of [Scenario.item "2" 1;
                                  Scenario.item "1" (2 ^ 1024);
                                  Scenario.item "3" 1] in
  snd (run (create_order Scenario.url Scenario.one_order order Scenario.now)
         (Scenario.shop (create_items order)))
  = (Raise (OverflowError "int too large to convert to float"), Scenario.one_order)
  /\ snd (run (create_order Scenario.url Scenario.one_order order Scenario.now)
            (answers [found (with_id "2" Scenario.widget);
                      Response 200 (DetailBody "no price")]))
     = (Raise (KeyError "price"), Scenario.one_order).
Proof.
  intros order. split.
  - rewrite (proj1 (create_order_uncaught Scenario.url Scenario.one_order order
                      Scenario.now (Scenario.shop (create_items order))
                      [Scenario.item "2" 1] (Scenario.item "1" (2 ^ 1024))
                      [Scenario.item "3" 1] eq_refl
                      ltac:(intros [|n] Hn; [eexists; reflexivity|simpl in Hn; lia])
                      ltac:(repeat constructor; discriminate))
               ltac:(eexists; reflexivity) ltac:(vm_compute; reflexivity)).
    reflexivity.
  - rewrite (proj2 (create_order_uncaught Scenario.url Scenario.one_order order
                      Scenario.now
                      (answers [found (with_id "2" Scenario.widget);
                                Response 200 (DetailBody "no price")])
                      [Scenario.item "2" 1] (Scenario.item "1" (2 ^ 1024))
                      [Scenario.item "3" 1] eq_refl
                      ltac:(intros [|n] Hn; [eexists; reflexivity|simpl in Hn; lia])
                      ltac:(repeat constructor; discriminate))
               ltac:(eexists; reflexivity)).
    reflexivity.
Defined.

(** ** The first item that is not found *)





(** ** Orders against the catalog *)

Lemma in_stock_length db items : forall prods,
  in_stock db items prods -> List.length prods = List.length items.
Proof.
  induction items as [|item items IH]; intros [|p prods] H; try contradiction.
  - reflexivity.
  - destruct H as (_ & _ & H). simpl. f_equal. now apply IH.
Qed.

Lemma in_stock_convertible db items : forall prods,
  in_stock db items prods ->
  Forall (fun it => Float.of_int (quantity it) <> None) items.
Proof.
  induction items as [|item items IH]; intros [|p prods] H; try contradiction.
  - constructor.
  - destruct H as (_ & Hq & H). constructor; [assumption|now apply (IH prods)].
Qed.

Lemma catalog_answers_tail db item items net :
  catalog_answers db (item :: items) net ->
  catalog_answers db items (fun n => net (S n)).
Proof. intros H n it Hn. exact (H (S n) it Hn). Qed.

Lemma catalog_answers_prefix db pre rest net :
  catalog_answers db (pre ++ rest)%list net -> catalog_answers db pre net.
Proof.
  intros H n it Hn. apply H. rewrite nth_error_app1; [assumption|].
  apply nth_error_Some. congruence.
Qed.

(** A network that agrees with the catalog answers the lookup of a product
    in stock with that product. *)
Lemma catalog_answers_found db items : forall net prods n p,
  catalog_answers db items net ->
  in_stock db items prods ->
  nth_error prods n = Some p ->
  net n = found p.
Proof.
  induction items as [|item items IH]; intros net [|p0 prods] n p Hnet H Hn;
    try contradiction.
  - now destruct n.
  - destruct H as (Hget & _ & H). destruct n as [|n].
    + injection Hn as ->. specialize (Hnet O item eq_refl).
      unfold lookup, get_product in Hnet. rewrite Hget in Hnet.
      destruct (plain_id (product_id item)); [|discriminate].
      destruct (is_finite (price p)); [|discriminate].
      now injection Hnet as <-.
    + exact (IH (fun k => net (S k)) prods n p
               (catalog_answers_tail _ _ _ _ Hnet) H Hn).
Qed.

(** ... and the lookup of a product that is not in the catalog with the 404
    answer of [get_product]. *)
Lemma catalog_answers_missing db pre item rest net :
  catalog_answers db (pre ++ item :: rest)%list net ->
  Dict.get (product_id item) db = None ->
  net (List.length pre) = Response 404 (DetailBody "Product not found").
Proof.
  intros Hnet Hmiss.
  assert (Hn : nth_error (pre ++ item :: rest)%list (List.length pre) = Some item).
  { rewrite nth_error_app2 by lia. now rewrite Nat.sub_diag. }
  specialize (Hnet _ _ Hn). unfold lookup, get_product in Hnet.
  rewrite Hmiss in Hnet.
  destruct (plain_id (product_id item)); [|discriminate].
  now injection Hnet as <-.
Qed.

(** X10. The two services together, for lookups that the Product Service
    answers from its catalog: identifiers that reach it unchanged (plain
    ones) and prices that are finite. When every item names a product of
    the catalog and the quantities are within the range of doubles, the
    order is created and stored, and its total is the rounded sum of catalog
    price times quantity. When some item names a product that is not in the
    catalog and the items before it are as above, the call raises 404 with
    the identifier of the first such item, after one lookup for each item up
    to it, and stores nothing. *)
Theorem order_against_catalog url st db order now net :
  (forall prods,
      catalog_answers db (create_items order) net ->
      in_stock db (create_items order) prods ->
      exists o,
        snd (run (create_order url st order now) net) = (Ok o, store_order st o)
        /\ total o = Float.round2 (line_sum (combine prods (create_items order)))
        /\ get_order (store_order st o) (str (order_counter st)) = Ok o)
  /\ (forall pre item post prods,
      create_items order = (pre ++ item :: post)%list ->
      catalog_answers db (pre ++ [item])%list net ->
      in_stock db pre prods ->
      Dict.get (product_id item) db = None ->
      snd (run (create_order url st order now) net)
      = (Raise (HTTPException 404
                  ("Product " ++ product_id item ++ " not found")), st)
      /\ List.length (fst (run (create_order url st order now) net))
         = S (List.length pre)).
Proof.
  rewrite run_create_order. cbn [fst snd]. split.
  - intros prods Hcat Hstock.
    pose proof (in_stock_length _ _ _ Hstock) as Hlen.
    assert (Hnet : forall n p, nth_error prods n = Some p -> net n = found p).
    { intros n p Hn. exact (catalog_answers_found db _ net prods n p Hcat Hstock Hn). }
    destruct (price_items_returns url _ prods Float.zero _ Hlen Hnet
                (in_stock_convertible _ _ _ Hstock)) as [t Ht].
    rewrite Ht. eexists. split; [reflexivity|]. split.
    + cbn [total new_order]. f_equal.
      exact (price_items_sum _ _ _ _ _ _ Hlen Hnet Ht).
    + unfold get_order, store_order. cbn [orders_db].
      now rewrite dict_get_set_same.
  - intros pre item post prods Hitems Hcat Hstock Hmiss. rewrite Hitems.
    pose proof (in_stock_length _ _ _ Hstock) as Hlen.
    destruct (price_items_stops url pre item post Float.zero net
                (HTTPException 404 ("Product " ++ product_id item ++ " not found")))
      as [H1 H2].
    + intros n Hn. rewrite <- Hlen in Hn.
      destruct (nth_error prods n) as [p|] eqn:E.
      * exists p.
        exact (catalog_answers_found db pre net prods n p
                 (catalog_answers_prefix _ _ _ _ Hcat) Hstock E).
      * apply nth_error_None in E. lia.
    + exact (in_stock_convertible _ _ _ Hstock).
    + intros acc'. now rewrite (catalog_answers_missing db pre item [] net Hcat Hmiss).
    + rewrite H1. split; [reflexivity|exact H2].
Qed.

(** Against the initial catalog: two mice and a keyboard are ordered; and a
    mouse, then product 999, which does not exist, then a keyboard. *)
Lemma order_against_catalog_witness :
  (exists o,
      snd (run (create_order Scenario.url initial_state
                  (Scenario.order_of [Scenario.item "2" 2; Scenario.item "3" 1])
                  Scenario.now)
             (catalog_net products_db [Scenario.item "2" 2; Scenario.item "3" 1]))
      = (Ok o, store_order initial_state o)
      /\ total o = Float.of_ratio false 13997 100)
  /\ snd (run (create_order Scenario.url initial_state
                 (Scenario.order_of [Scenario.item "2" 1; Scenario.item "999" 1;
                                     Scenario.item "3" 1])
                 Scenario.now)
            (catalog_net products_db [Scenario.item "2" 1; Scenario.item "999" 1;
                                      Scenario.item "3" 1]))
     = (Raise (HTTPException 404 "Product 999 not found"), initial_state).
Proof.
  split.
  - destruct (proj1 (order_against_catalog Scenario.url initial_state products_db
                       (Scenario.order_of [Scenario.item "2" 2; Scenario.item "3" 1])
                       Scenario.now
                       (catalog_net products_db
                          [Scenario.item "2" 2; Scenario.item "3" 1]))
                [with_id "2" {| create_name := "Mouse";
                                create_price := Float.of_ratio false 2999 100;
                                create_category := "Electronics" |};
                 with_id "3" {| create_name := "Keyboard";
                                create_price := Float.of_ratio false 7999 100;
                                create_category := "Electronics" |}])
      as (o & H1 & H2 & _).
    + intros [|[|[|n]]] it; simpl; intros [= <-]; reflexivity.
    + cbn. repeat split; discriminate.
    + exists o. split; [exact H1|]. rewrite H2. vm_compute. reflexivity.
  - apply (proj2 (order_against_catalog Scenario.url initial_state products_db
                    (Scenario.order_of [Scenario.item "2" 1; Scenario.item "999" 1;
                                        Scenario.item "3" 1])
                    Scenario.now
                    (catalog_net products_db
                       [Scenario.item "2" 1; Scenario.item "999" 1;
                        Scenario.item "3" 1]))
             [Scenario.item "2" 1] (Scenario.item "999" 1) [Scenario.item "3" 1]
             [with_id "2" {| create_name := "Mouse";
                             create_price := Float.of_ratio false 2999 100;
                             create_category := "Electronics" |}]).
    + reflexivity.
    + intros [|[|[|n]]] it; simpl; intros [= <-]; reflexivity.
    + cbn. repeat split; discriminate.
    + reflexivity.
Defined.

(** ** The order store over a sequence of requests *)

(** The store holds the orders 1, 2, ... in this order, each under its own
    identifier, and the counter is one past the last of them. *)
Definition store_ok (st : state) : Prop :=
  sequential_keys (orders_db st)
  /\ order_counter st = Dict.len (orders_db st) + 1
  /\ Forall (fun kv => OrderService.id (snd kv) = fst kv) (orders_db st).

(** Two orders agree on everything but the status. *)
Definition same_but_status (o o' : Order) : Prop :=
  OrderService.id o' = OrderService.id o
  /\ customer_id o' = customer_id o
  /\ items o' = items o
  /\ total o' = total o
  /\ created_at o' = created_at o.

Lemma dict_Forall_set {V : Type} (P : string * V -> Prop) k v (d : Dict.t V) :
  Forall P d -> P (k, v) -> Forall P (Dict.set k v d).
Proof.
  intros Hd Hkv. induction Hd as [|[k0 v0] d H0 Hd IH]; simpl.
  - now constructor.
  - destruct (String.eqb k0 k); constructor; auto.
Qed.

Lemma dict_get_In {V : Type} k (v : V) (d : Dict.t V) :
  Dict.get k d = Some v -> In (k, v) d.
Proof.
  induction d as [|[k0 v0] d IH]; simpl; [discriminate|].
  destruct (String.eqb_spec k0 k) as [->|Hk].
  - intros [= ->]. now left.
  - intros H. right. now apply IH.
Qed.

Lemma store_ok_initial : store_ok initial_state.
Proof. repeat split. constructor. Qed.

Lemma handle_store_ok url st req : store_ok st -> store_ok (snd (handle url st req)).
Proof.
  intros (Hkeys & Hcount & Hids).
  destruct req as [order now net|oid|c|oid s]; try (repeat split; assumption).
  - rewrite handle_CreateOrder.
    destruct (snd (run (price_items url (create_items order) Float.zero) net))
      as [t|e]; cbn [snd]; [|repeat split; assumption].
    unfold store_ok, store_order. cbn [orders_db order_counter].
    rewrite Hcount. split; [|split].
    + now apply sequential_keys_set_next.
    + rewrite !dict_len_length, dict_length_set_absent.
      * lia.
      * now apply sequential_keys_next_free.
    + apply dict_Forall_set; [assumption|].
      cbn [fst snd OrderService.id new_order]. now rewrite Hcount.
  - cbn [handle]. unfold update_order_status.
    destruct (Dict.get oid (orders_db st)) as [o|] eqn:Hget;
      [|repeat split; assumption].
    destruct (negb (is_valid_status s)); cbn [snd]; [repeat split; assumption|].
    pose proof (dict_get_Some_keys _ _ _ Hget) as Hin.
    unfold store_ok. cbn [orders_db order_counter]. split; [|split].
    + now apply sequential_keys_set_present.
    + now rewrite !dict_len_length, dict_length_set_present.
    + apply dict_Forall_set; [assumption|].
      apply dict_get_In in Hget. rewrite Forall_forall in Hids.
      exact (Hids _ Hget).
Qed.

Lemma serve_store_ok url reqs : forall st,
  store_ok st -> store_ok (snd (serve url st reqs)).
Proof.
  induction reqs as [|req reqs IH]; intros st Hst; [assumption|].
  cbn [serve]. pose proof (handle_store_ok url st req Hst) as H1.
  destruct (handle url st req) as [rep st1]. cbn [snd] in H1.
  specialize (IH st1 H1). now destruct (serve url st1 reqs).
Qed.

Lemma values_ids (d : Dict.t Order) :
  Forall (fun kv => OrderService.id (snd kv) = fst kv) d ->
  map OrderService.id (Dict.values d) = Dict.keys d.
Proof.
  induction 1 as [|[k o] d H0 Hd IH]; simpl; [reflexivity|].
  cbn [fst snd] in H0. now rewrite H0, IH.
Qed.

(** X11. After any sequence of requests the listing without a filter shows
    the orders 1, 2, ... in the order of their creation, as many as were
    created: no order is ever dropped or reordered. The counter is one past
    their number; the identifiers from 1 up to the counter are exactly those
    under which an order is found, and every other decimal identifier is
    answered 404. *)
Theorem order_store_sequential url reqs :
  let st := snd (serve url initial_state reqs) in
  map OrderService.id (get_orders st None)
  = map (fun i => str (Z.of_nat i)) (seq 1 (List.length (get_orders st None)))
  /\ List.length (get_orders st None)
     = List.length (created reqs (fst (serve url initial_state reqs)))
  /\ order_counter st = Z.of_nat (List.length (get_orders st None)) + 1
  /\ (forall n, 1 <= n < order_counter st ->
                exists o, get_order st (str n) = Ok o
                          /\ OrderService.id o = str n)
  /\ (forall n, ~ (1 <= n < order_counter st) ->
                get_order st (str n)
                = Raise (HTTPException 404 "Order not found")).
Proof.
  cbn zeta.
  destruct (serve_store_ok url reqs _ store_ok_initial)
    as (Hkeys & Hcount & Hids).
  pose proof (proj2 (serve_created url reqs initial_state)) as Hcreated.
  cbn zeta in Hcreated. cbn [order_counter initial_state] in Hcreated.
  set (st := snd (serve url initial_state reqs)) in *.
  unfold get_orders. cbn [truthy].
  assert (Hlen : List.length (Dict.values (orders_db st))
                 = List.length (orders_db st)) by apply length_map.
  rewrite Hlen. rewrite dict_len_length in Hcount.
  split; [|split; [|split; [|split]]].
  - now rewrite values_ids.
  - lia.
  - exact Hcount.
  - intros n Hn.
    assert (Hin : In (str n) (Dict.keys (orders_db st))).
    { rewrite Hkeys. apply in_map_iff. exists (Z.to_nat n). split.
      - f_equal. lia.
      - apply in_seq. lia. }
    unfold get_order.
    destruct (Dict.get (str n) (orders_db st)) as [o|] eqn:Hget.
    + exists o. split; [reflexivity|].
      apply dict_get_In in Hget. rewrite Forall_forall in Hids.
      exact (Hids _ Hget).
    + apply dict_get_none_keys in Hget. contradiction.
  - intros n Hn. unfold get_order.
    destruct (Dict.get (str n) (orders_db st)) as [o|] eqn:Hget; [|reflexivity].
    apply dict_get_Some_keys in Hget. rewrite Hkeys in Hget.
    apply in_map_iff in Hget. destruct Hget as (i & E & Hi).
    apply str_inj in E. apply in_seq in Hi. lia.
Qed.

(** Two orders are created around one that fails and a status update. *)
Lemma order_store_sequential_witness :
  let reqs :=
    [ CreateOrder (Scenario.order_of [Scenario.item "2" 2]) Scenario.now
        (Scenario.shop [Scenario.item "2" 2]);
      CreateOrder (Scenario.order_of [Scenario.item "999" 1]) Scenario.now
        (Scenario.shop [Scenario.item "999" 1]);
      UpdateOrderStatus "1" "shipped";
      CreateOrder (Scenario.order_of []) Scenario.now (Scenario.shop []) ] in
  let st := snd (serve Scenario.url initial_state reqs) in
  map OrderService.id (get_orders st None) = ["1"; "2"]
  /\ (exists o, get_order st (str 2) = Ok o /\ OrderService.id o = str 2)
  /\ get_order st (str 3) = Raise (HTTPException 404 "Order not found").
Proof.
  intros reqs st.
  pose proof (order_store_sequential Scenario.url reqs) as (H1 & _ & _ & H4 & H5).
  fold st in H1, H4, H5. split; [|split].
  - rewrite H1. reflexivity.
  - apply H4. vm_compute. split; [discriminate|reflexivity].
  - apply H5. vm_compute. intros [_ H]. discriminate.
Defined.

Lemma serve_app url reqs1 : forall st reqs2,
  snd (serve url st (reqs1 ++ reqs2)%list)
  = snd (serve url (snd (serve url st reqs1)) reqs2).
Proof.
  induction reqs1 as [|req reqs1 IH]; intros st reqs2; [reflexivity|].
  cbn [app serve]. destruct (handle url st req) as [rep st1].
  specialize (IH st1 reqs2).
  destruct (serve url st1 (reqs1 ++ reqs2)%list) as [reps st2].
  destruct (serve url st1 reqs1) as [reps1 st3]. exact IH.
Qed.

Lemma same_but_status_refl o : same_but_status o o.
Proof. repeat split. Qed.

Lemma same_but_status_trans o1 o2 o3 :
  same_but_status o1 o2 -> same_but_status o2 o3 -> same_but_status o1 o3.
Proof.
  intros (A1 & A2 & A3 & A4 & A5) (B1 & B2 & B3 & B4 & B5).
  repeat split; congruence.
Qed.

Lemma handle_persists url st req k o :
  keys_below st ->
  Dict.get k (orders_db st) = Some o ->
  exists o',
    Dict.get k (orders_db (snd (handle url st req))) = Some o'
    /\ same_but_status o o'.
Proof.
  intros Hinv Hget.
  destruct req as [order now net|oid|c|oid s];
    try (exists o; split; [assumption|apply same_but_status_refl]).
  - rewrite handle_CreateOrder.
    destruct (snd (run (price_items url (create_items order) Float.zero) net));
      cbn [snd]; exists o; (split; [|apply same_but_status_refl]);
      [|assumption].
    unfold store_order. cbn [orders_db].
    rewrite dict_get_set_other; [assumption|].
    intros ->. apply dict_get_Some_keys in Hget.
    destruct (Hinv _ Hget) as (n & E & Hn). apply str_inj in E. lia.
  - cbn [handle]. unfold update_order_status.
    destruct (Dict.get oid (orders_db st)) as [o0|] eqn:Hget0;
      [|exists o; split; [assumption|apply same_but_status_refl]].
    destruct (negb (is_valid_status s)); cbn [snd orders_db];
      [exists o; split; [assumption|apply same_but_status_refl]|].
    destruct (String.eqb_spec oid k) as [->|Hk].
    + exists (with_status o s). rewrite dict_get_set_same.
      split; [congruence|repeat split].
    + exists o. rewrite dict_get_set_other by congruence.
      split; [assumption|apply same_but_status_refl].
Qed.

Lemma serve_persists url reqs : forall st k o,
  keys_below st ->
  Dict.get k (orders_db st) = Some o ->
  exists o',
    Dict.get k (orders_db (snd (serve url st reqs))) = Some o'
    /\ same_but_status o o'.
Proof.
  induction reqs as [|req reqs IH]; intros st k o Hinv Hget.
  - exists o. split; [assumption|apply same_but_status_refl].
  - cbn [serve].
    destruct (handle_persists url st req k o Hinv Hget) as (o1 & Hget1 & Hs1).
    pose proof (handle_keys_below url st req Hinv) as Hinv1.
    destruct (handle url st req) as [rep st1]. cbn [snd] in *.
    destruct (IH st1 k o1 Hinv1 Hget1) as (o2 & Hget2 & Hs2).
    destruct (serve url st1 reqs) as [reps st2]. cbn [snd] in *.
    exists o2. split; [assumption|]. now apply (same_but_status_trans o o1 o2).
Qed.

(** X12. An order, once stored, stays: after any further requests it is
    still found under its identifier, with the identifier, customer, items,
    total and creation time it was created with; only its status may
    differ. Nothing deletes an order or recomputes a total, whatever happens
    to the prices later. *)
Theorem orders_persist url reqs1 reqs2 k o :
  get_order (snd (serve url initial_state reqs1)) k = Ok o ->
  exists o',
    get_order (snd (serve url initial_state (reqs1 ++ reqs2)%list)) k = Ok o'
    /\ same_but_status o o'.
Proof.
  unfold get_order. intros Hget.
  destruct (Dict.get k (orders_db (snd (serve url initial_state reqs1))))
    as [o0|] eqn:E; [|discriminate].
  injection Hget as ->.
  destruct (serve_persists url reqs2 _ k o
              (serve_keys_below url reqs1 _ initial_keys_below) E)
    as (o' & Hget' & Hs).
  exists o'. now rewrite serve_app, Hget'.
Qed.

(** The first order is still there after a failed creation, a status
    update and another creation. *)
Lemma orders_persist_witness :
  exists o',
    get_order
      (snd (serve Scenario.url initial_state
              ([CreateOrder (Scenario.order_of [Scenario.item "2" 2]) Scenario.now
                  (Scenario.shop [Scenario.item "2" 2])]
               ++ [CreateOrder (Scenario.order_of [Scenario.item "999" 1])
                     Scenario.now (Scenario.shop [Scenario.item "999" 1]);
                   UpdateOrderStatus "1" "shipped";
                   CreateOrder (Scenario.order_of []) Scenario.now
                     (Scenario.shop [])])%list))
      "1"
    = Ok o'
    /\ same_but_status Scenario.first_order o'.
Proof.
  apply (orders_persist Scenario.url
           [CreateOrder (Scenario.order_of [Scenario.item "2" 2]) Scenario.now
              (Scenario.shop [Scenario.item "2" 2])]).
  vm_compute. reflexivity.
Defined.

(** ** Zero quantities *)

Lemma add_zero_mul_zero p :
  is_finite p = true ->
  Float.add Float.zero (Float.mul p (S754_zero false)) = Float.zero.
Proof.
  destruct p as [s|s| |s m e]; try discriminate; intros _; now destruct s.
Qed.

Lemma price_items_zero url items : forall prods net,
  List.length prods = List.length items ->
  (forall n p, nth_error prods n = Some p -> net n = found p) ->
  Forall (fun p => is_finite (price p) = true) prods ->
  Forall (fun item => quantity item = 0) items ->
  snd (run (price_items url items Float.zero) net) = Ok Float.zero.
Proof.
  induction items as [|item rest IH]; intros [|p prods] net Hlen Hnet Hfin Hq;
    try discriminate.
  - reflexivity.
  - rewrite run_price_items_cons, (Hnet O p eq_refl), price_item_found.
    inversion Hq as [|? ? Hitem Hrest]; subst.
    inversion Hfin as [|? ? Hp Hprods]; subst.
    rewrite Hitem. cbn [Float.of_int Float.to_float binary_normalize].
    rewrite add_zero_mul_zero by assumption. cbn [snd].
    apply (IH prods);
      [simpl in Hlen; lia|intros n p' Hn; now apply (Hnet (S n))
      |assumption|assumption].
Qed.

(** X13. Quantities are not checked: an order whose items all have the
    quantity zero is created like any other, once every product is found,
    and its total is [0.0] whatever the (finite) prices are. *)
Theorem create_order_zero_quantities url st order now net prods :
  List.length prods = List.length (create_items order) ->
  (forall n p, nth_error prods n = Some p -> net n = found p) ->
  Forall (fun p => is_finite (price p) = true) prods ->
  Forall (fun item => quantity item = 0) (create_items order) ->
  exists o,
    snd (run (create_order url st order now) net) = (Ok o, store_order st o)
    /\ total o = Float.zero
    /\ items o = create_items order.
Proof.
  intros Hlen Hnet Hfin Hq. rewrite run_create_order. cbn [snd].
  rewrite (price_items_zero url _ prods net Hlen Hnet Hfin Hq).
  eexists. split; [reflexivity|]. split; reflexivity.
Qed.

(** No laptop and no mouse. *)
Lemma create_order_zero_quantities_witness :
  exists o,
    snd (run (create_order Scenario.url initial_state
                (Scenario.order_of [Scenario.item "1" 0; Scenario.item "2" 0])
                Scenario.now)
           (Scenario.shop [Scenario.item "1" 0; Scenario.item "2" 0]))
    = (Ok o, store_order initial_state o)
    /\ total o = Float.zero
    /\ items o = [Scenario.item "1" 0; Scenario.item "2" 0].
Proof.
  apply (create_order_zero_quantities Scenario.url initial_state
           (Scenario.order_of [Scenario.item "1" 0; Scenario.item "2" 0])
           Scenario.now
           (Scenario.shop [Scenario.item "1" 0; Scenario.item "2" 0])
           [with_id "1" {| create_name := "Laptop";
                           create_price := Float.of_ratio false 99999 100;
                           create_category := "Electronics" |};
            with_id "2" {| create_name := "Mouse";
                           create_price := Float.of_ratio false 2999 100;
                           create_category := "Electronics" |}]).
  - reflexivity.
  - intros [|[|[|n]]] p; simpl; intros [= <-]; reflexivity.
  - repeat constructor.
  - repeat constructor.
Defined.
